(** * Verification of fireflycons/bubbles: [messagebox] and [xtable]

    A shallow embedding of the message box state machine
    (messagebox/message_box.go) and of the table operations exercised by
    xtable/xtable_test.go, with the properties stated about them. *)

From Stdlib Require Import ZArith List String Ascii Bool Lia QArith Sorted
  Permutation.
Import ListNotations.
Open Scope string_scope.
Open Scope Z_scope.

(** ** Go runtime: panics, the [int] type, slices and strings *)

(** The run-time panics the modelled code can raise. *)
Inductive panic : Type :=
| DivideByZero
| IndexOutOfRange
| NilDereference.

(** A Go call either returns a value or panics. *)
Inductive result (A : Type) : Type :=
| Ok (a : A)
| Panic (p : panic).

Arguments Ok {A} a.
Arguments Panic {A} p.

Definition bind {A B : Type} (r : result A) (k : A -> result B) : result B :=
  match r with
  | Ok a => k a
  | Panic p => Panic p
  end.

Notation "x <- r ;; k" := (bind r (fun x => k))
  (at level 61, r at next level, right associativity).

Definition is_Ok {A : Type} (r : result A) : bool :=
  match r with
  | Ok _ => true
  | Panic _ => false
  end.

Module GoInt.

(** Go's [int] on the 64-bit targets: two's complement wrap-around. *)
Definition wrap (z : Z) : Z := (z + 2 ^ 63) mod 2 ^ 64 - 2 ^ 63.

Definition add (a b : Z) : Z := wrap (a + b).
Definition sub (a b : Z) : Z := wrap (a - b).

(** [a % b]: truncated remainder; a zero divisor panics. *)
Definition rem (a b : Z) : result Z :=
  if b =? 0 then Panic DivideByZero else Ok (Z.rem a b).

Definition max (a b : Z) : Z := if a >? b then a else b.
Definition min (a b : Z) : Z := if a <? b then a else b.

End GoInt.

Module GoSlice.

(** [len(s)] as a Go [int]. *)
Definition len {A : Type} (s : list A) : Z := Z.of_nat (List.length s).

(** [s[i]]: panics outside [0, len(s)). *)
Definition index {A : Type} (s : list A) (i : Z) : result A :=
  if i <? 0 then Panic IndexOutOfRange
  else match nth_error s (Z.to_nat i) with
       | Some a => Ok a
       | None => Panic IndexOutOfRange
       end.

(** [slices.Index(s, v)]: position of the first [v], or -1. *)
Fixpoint Index (s : list Z) (v : Z) : Z :=
  match s with
  | [] => -1
  | x :: s' =>
      if x =? v then 0
      else let i := Index s' v in
           if i =? -1 then -1 else i + 1
  end.

(** [slices.Contains(s, v)] is [Index(s, v) >= 0]. *)
Definition Contains (s : list Z) (v : Z) : bool := Index s v >=? 0.

End GoSlice.

Module GoStrings.

(** [strings.Index(s, substr)]: byte offset of the first occurrence, or -1. *)
Definition Index (s substr : string) : Z :=
  match String.index 0 substr s with
  | Some n => Z.of_nat n
  | None => -1
  end.

(** [strings.Contains(s, substr)] is [Index(s, substr) >= 0]. *)
Definition Contains (s substr : string) : bool := Index s substr >=? 0.

(** [s[i]] on a string: the byte at offset [i]. *)
Definition at_ (s : string) (i : Z) : result ascii :=
  if i <? 0 then Panic IndexOutOfRange
  else match String.get (Z.to_nat i) s with
       | Some c => Ok c
       | None => Panic IndexOutOfRange
       end.

(** [s[i:j]] for in-range bounds, [s[i:]] when [j] is the length. *)
Definition slice (s : string) (i j : Z) : result string :=
  if (i <? 0) || (j <? i) || (Z.of_nat (String.length s) <? j)
  then Panic IndexOutOfRange
  else Ok (String.substring (Z.to_nat i) (Z.to_nat (j - i)) s).

(** [strings.ToLower] on one ASCII byte. *)
Definition lower_byte (c : ascii) : ascii :=
  let n := nat_of_ascii c in
  if (65 <=? n)%nat && (n <=? 90)%nat then ascii_of_nat (n + 32) else c.

Fixpoint ToLower (s : string) : string :=
  match s with
  | EmptyString => EmptyString
  | String c s' => String (lower_byte c) (ToLower s')
  end.

(** [strings.Count(s, "\n")]. *)
Fixpoint CountNewlines (s : string) : Z :=
  match s with
  | EmptyString => 0
  | String c s' =>
      (if Ascii.eqb c (ascii_of_nat 10) then 1 else 0) + CountNewlines s'
  end.

(** [strings.Join(elems, sep)]. *)
Definition Join (elems : list string) (sep : string) : string :=
  String.concat sep elems.

End GoStrings.

(** ** messagebox/message_box.go *)

(** The terminal libraries the message box is drawn with (lipgloss,
    go-runewidth, bubbles/viewport) and the overlay routine [PlaceOverlay]
    of the package, whose file is not among the sources; none of them takes
    part in the state machine.  The library calls are taken to return;
    [PlaceOverlay], code of the package that cannot be read here, may
    return or panic. *)
Class TermLib : Type := {
  Style : Type;
  Style_Render : Style -> string -> string;
  Style_Hotkey : Style -> Style;
  Style_Center : Z -> Style;
  Style_DefaultBorder : Style;
  Style_DefaultButton : Style;
  Style_DefaultSelectedButton : Style;
  Color : Type;
  Color_buttonHotkey : Color;
  Viewport : Type;
  viewport_New : Z -> Z -> Viewport;
  viewport_SetContent : Viewport -> string -> Viewport;
  viewport_View : Viewport -> string;
  runewidth_StringWidth : string -> Z;
  runewidth_Wrap : string -> Z -> string;
  strings_TrimSpace : string -> string;
  PlaceOverlay : Z -> Z -> string -> string -> result string
}.

Module messagebox.

(** [type Button int], with [MB_OK Button = 1 << (iota + 1)] and so on. *)
Definition Button : Type := Z.

Definition MB_OK : Button := Z.shiftl 1 1.
Definition MB_CANCEL : Button := Z.shiftl 1 2.
Definition MB_YES : Button := Z.shiftl 1 3.
Definition MB_NO : Button := Z.shiftl 1 4.
Definition MB_ALL : Button := Z.shiftl 1 5.

(** [type Type int]: the buttons to show, or-ed together. *)
Definition Type_ : Type := Z.

Definition OK : Type_ := MB_OK.
Definition OK_CANCEL : Type_ := Z.lor MB_OK MB_CANCEL.
Definition YES_NO : Type_ := Z.lor MB_YES MB_NO.
Definition YES_NO_ALL : Type_ := Z.lor (Z.lor MB_YES MB_NO) MB_ALL.

Definition defaultViewPortWidth : Z := 40.

(** The map [buttonText]; a missing key reads as the empty string. *)
Definition buttonText (b : Button) : string :=
  if b =? MB_OK then "&Ok"
  else if b =? MB_CANCEL then "&Cancel"
  else if b =? MB_YES then "&Yes"
  else if b =? MB_NO then "&No"
  else if b =? MB_ALL then "&All"
  else "".

Definition string_of_byte (c : ascii) : string := String c EmptyString.

Definition highlightChar (b : Button) : result string :=
  let text := buttonText b in
  let highlight := GoStrings.Index text "&" in
  c <- GoStrings.at_ text (GoInt.add highlight 1) ;;
  Ok (string_of_byte c).

(** The keys of the binding [keyBinding] builds for a button. *)
Definition keyBinding (b : Button) : result (list string) :=
  highlight <- highlightChar b ;;
  let keys := [GoStrings.ToLower highlight] in
  Ok (if negb (Z.land b (Z.lor MB_CANCEL MB_NO) =? 0)
      then (keys ++ ["esc"])%list
      else keys).

(** [tea.KeyType], as far as [Update] tells the values apart. *)
Inductive KeyType : Type :=
| KeyEsc
| KeyCtrlI
| KeyRight
| KeyShiftTab
| KeyLeft
| KeySpace
| KeyEnter
| KeyOther (code : Z).

(** [tea.KeyMsg]: its [Type] and what its [String()] method yields. *)
Record KeyMsg : Type := {
  Type__ : KeyType;
  String__ : string
}.

(** [key.Matches(msg, binding)] for an enabled binding with these keys. *)
Definition key_Matches (msg : KeyMsg) (keys : list string) : bool :=
  existsb (fun k => String.eqb (String__ msg) k) keys.

Section WithTermLib.

Context {T : TermLib}.

Record Styles : Type := {
  Border : Style;
  Button_ : Style;
  SelectedButton : Style;
  HotKey : Color
}.

Definition DefaultStyles : Styles :=
  {| Border := Style_DefaultBorder;
     Button_ := Style_DefaultButton;
     SelectedButton := Style_DefaultSelectedButton;
     HotKey := Color_buttonHotkey |}.

Record options : Type := {
  o_xpos : Z;
  o_ypos : Z;
  o_width : Z;
  o_style : option Styles
}.

Definition optionFunc : Type := options -> options.

Definition WithPosition (x y : Z) : optionFunc :=
  fun o => {| o_xpos := x; o_ypos := y;
              o_width := o_width o; o_style := o_style o |}.

Definition WithWidth (w : Z) : optionFunc :=
  fun o => {| o_xpos := o_xpos o; o_ypos := o_ypos o;
              o_width := w; o_style := o_style o |}.

Definition WithStyle (s : Styles) : optionFunc :=
  fun o => {| o_xpos := o_xpos o; o_ypos := o_ypos o;
              o_width := o_width o; o_style := Some s |}.

(** [Button.render]. *)
Definition Button_render (b : Button) (style : Styles) (selected : bool)
  : result string :=
  let text := buttonText b in
  let highlight := GoStrings.Index text "&" in
  highlightedChar <- GoStrings.at_ text (GoInt.add highlight 1) ;;
  pre <- GoStrings.slice text 0 highlight ;;
  post <- GoStrings.slice text (GoInt.add highlight 2)
            (Z.of_nat (String.length text)) ;;
  let buttonStyle :=
    if selected then SelectedButton style else Button_ style in
  Ok (Style_Render buttonStyle (" " ++ pre)
      ++ Style_Render (Style_Hotkey buttonStyle)
           (string_of_byte highlightedChar)
      ++ Style_Render buttonStyle (post ++ " "))%string.

(** [box]: an active message box. *)
Record box : Type := {
  message : string;
  buttons : list Button;
  selectedButton : Z
}.

(** [Model]; the field [box] is [nil] while no message box shows.  The
    Go field is a pointer that the copies of a model share; each
    operation below returns the model that holds the box as the
    operation left it. *)
Record Model : Type := {
  viewport : Viewport;
  box_ : option box;
  xpos : Z;
  ypos : Z;
  width : Z;
  styles : Styles
}.

Definition set_box (m : Model) (b : option box) : Model :=
  {| viewport := viewport m; box_ := b; xpos := xpos m; ypos := ypos m;
     width := width m; styles := styles m |}.

Definition set_selectedButton (b : box) (i : Z) : box :=
  {| message := message b; buttons := buttons b; selectedButton := i |}.

Definition set_message (b : box) (s : string) : box :=
  {| message := s; buttons := buttons b;
     selectedButton := selectedButton b |}.

(** The loop of [renderButtons] over [m.box.buttons], index first. *)
Fixpoint renderButtons_loop (style : Styles) (sel : Z) (i : Z)
  (bs : list Button) : result (list string) :=
  match bs with
  | [] => Ok []
  | b :: bs' =>
      s <- Button_render b style (i =? sel) ;;
      rest <- renderButtons_loop style sel (i + 1) bs' ;;
      Ok (s :: rest)
  end.

Definition renderButtons (m : Model) : result string :=
  match box_ m with
  | None => Panic NilDereference
  | Some b =>
      bs <- renderButtons_loop (styles m) (selectedButton b) 0 (buttons b) ;;
      Ok (GoStrings.Join bs " ")
  end.

(** The display order [New] walks through. *)
Definition displayOrder : list Button :=
  [MB_OK; MB_YES; MB_NO; MB_ALL; MB_CANCEL].

Definition New (m : Model) (message : string) (boxType : Type_)
  (opts : list optionFunc) : result Model :=
  let o := fold_left (fun o opt => opt o) opts
             {| o_xpos := 0; o_ypos := 0; o_width := 0; o_style := None |} in
  let styles' :=
    match o_style o with
    | None => DefaultStyles
    | Some s => s
    end in
  let buttons :=
    filter (fun b => negb (Z.land boxType b =? 0)) displayOrder in
  let selectedButton :=
    if GoSlice.len buttons =? 1 then 0
    else
      let s := GoSlice.Index buttons MB_CANCEL in
      let s := if s =? -1 then GoSlice.Index buttons MB_NO else s in
      if s =? -1 then 0 else s in
  let b := {| message := ""; buttons := buttons;
              selectedButton := selectedButton |} in
  let m1 := {| viewport := viewport m; box_ := Some b;
               xpos := o_xpos o; ypos := o_ypos o;
               width := defaultViewPortWidth; styles := styles' |} in
  buttonBar <- renderButtons m1 ;;
  let buttonsWidth := GoInt.add (runewidth_StringWidth buttonBar) 2 in
  let width' :=
    if negb (o_width o =? 0) then GoInt.max buttonsWidth (o_width o)
    else width m1 in
  let msg := runewidth_Wrap (strings_TrimSpace message)
               (GoInt.sub width' 2) in
  Ok {| viewport :=
          viewport_New width' (GoInt.add (GoStrings.CountNewlines msg) 3);
        box_ := Some (set_message b msg);
        xpos := xpos m1; ypos := ypos m1;
        width := width'; styles := styles m1 |}.

(** [tea.Msg] values that reach or leave the message box: a key press,
    a [Button], the function value [buttonToReturn] that the escape
    branch of [Update] hands out (it closes over the receiver [m], whose
    state when [Update] returns is recorded), or any other message. *)
Inductive Msg : Type :=
| MsgKey (k : KeyMsg)
| MsgButton (b : Button)
| MsgButtonToReturn (captured : Model)
| MsgOther.

(** Calling the function value [buttonToReturn]. *)
Definition buttonToReturn (captured : Model) : result Button :=
  match box_ captured with
  | None => Panic NilDereference
  | Some b =>
      if GoSlice.Contains (buttons b) MB_CANCEL then Ok MB_CANCEL
      else if GoSlice.Contains (buttons b) MB_NO then Ok MB_NO
      else Ok MB_CANCEL
  end.

(** The [default] branch of [Update]: the first button whose binding
    matches the key. *)
Fixpoint matchBoundKey (msg : KeyMsg) (bs : list Button)
  : result (option Button) :=
  match bs with
  | [] => Ok None
  | b :: bs' =>
      keys <- keyBinding b ;;
      if key_Matches msg keys then Ok (Some b)
      else matchBoundKey msg bs'
  end.

(** [Update]: the new model and the message its command yields ([None]
    for a [nil] command). *)
Definition Update (m : Model) (msg : Msg) : result (Model * option Msg) :=
  match box_ m with
  | None => Ok (m, None)
  | Some b =>
      match msg with
      | MsgKey k =>
          match Type__ k with
          | KeyEsc =>
              let m' := set_box m None in
              Ok (m', Some (MsgButtonToReturn m'))
          | KeyCtrlI | KeyRight =>
              s <- GoInt.rem (GoInt.add (selectedButton b) 1)
                     (GoSlice.len (buttons b)) ;;
              Ok (set_box m (Some (set_selectedButton b s)), None)
          | KeyShiftTab | KeyLeft =>
              s <- GoInt.rem
                     (GoInt.sub
                        (GoInt.add (GoSlice.len (buttons b))
                           (selectedButton b)) 1)
                     (GoSlice.len (buttons b)) ;;
              Ok (set_box m (Some (set_selectedButton b s)), None)
          | KeySpace | KeyEnter =>
              selected <- GoSlice.index (buttons b) (selectedButton b) ;;
              Ok (set_box m None, Some (MsgButton selected))
          | KeyOther _ =>
              hit <- matchBoundKey k (buttons b) ;;
              match hit with
              | Some btn => Ok (set_box m None, Some (MsgButton btn))
              | None => Ok (m, None)
              end
          end
      | _ => Ok (m, None)
      end
  end.

(** [Render]: the receiver copy as the call leaves it, and the string
    returned. *)
Definition Render (m : Model) (content : string) : result (Model * string) :=
  match box_ m with
  | None => Ok (m, content)
  | Some b =>
      let center := Style_Center (GoInt.sub (width m) 2) in
      bar <- renderButtons m ;;
      let vp :=
        viewport_SetContent (viewport m)
          (Style_Render center (message b) ++ String (ascii_of_nat 10)
             (String (ascii_of_nat 10) EmptyString)
           ++ Style_Render center bar)%string in
      let m' := {| viewport := vp; box_ := box_ m; xpos := xpos m;
                   ypos := ypos m; width := width m; styles := styles m |} in
      out <- PlaceOverlay (xpos m) (ypos m)
               (Style_Render (Border (styles m)) (viewport_View vp))
               content ;;
      Ok (m', out)
  end.

Definition IsActive (m : Model) : bool :=
  match box_ m with
  | None => false
  | Some _ => true
  end.

(** The place of a button in the display order Ok, Yes, No, All,
    Cancel. *)
Definition displayRank (b : Button) : Z :=
  if b =? MB_OK then 0
  else if b =? MB_YES then 1
  else if b =? MB_NO then 2
  else if b =? MB_ALL then 3
  else if b =? MB_CANCEL then 4
  else 5.

(** The five buttons or-ed together. *)
Definition allButtons : Z :=
  Z.lor (Z.lor (Z.lor (Z.lor MB_OK MB_CANCEL) MB_YES) MB_NO) MB_ALL.

(** What [New] establishes for a box and [Update] keeps: the buttons
    are taken from the display order, and the selection points at one of
    them, or is 0 when there is none. *)
Definition box_ok (b : box) : Prop :=
  incl (buttons b) displayOrder /\
  GoSlice.len (buttons b) <= 5 /\
  ((buttons b = [] /\ selectedButton b = 0) \/
   0 <= selectedButton b < GoSlice.len (buttons b)).

(** The key types of the two cycling branches and the confirm branch. *)
Definition cyclesOrConfirms (t : KeyType) : bool :=
  match t with
  | KeyCtrlI | KeyRight | KeyShiftTab | KeyLeft | KeySpace | KeyEnter => true
  | _ => false
  end.

(** The models a host can hold: one without a box (the zero value,
    whatever its other fields), and what [New] and [Update] return. *)
Inductive reachable : Model -> Prop :=
| reach_inactive (m : Model) :
    box_ m = None -> reachable m
| reach_New (m m' : Model) (message : string) (boxType : Type_)
    (opts : list optionFunc) :
    reachable m -> New m message boxType opts = Ok m' -> reachable m'
| reach_Update (m m' : Model) (msg : Msg) (cmd : option Msg) :
    reachable m -> Update m msg = Ok (m', cmd) -> reachable m'.

(** The options of a call to [New], applied in order to the zero
    [options] value, as the first loop of [New] does. *)
Definition applyOptions (opts : list optionFunc) : options :=
  fold_left (fun o opt => opt o) opts
    {| o_xpos := 0; o_ypos := 0; o_width := 0; o_style := None |}.

(** The host loop of the example program while a box is active: every
    message goes to [Update] and the model returned replaces the one
    held; here the same message [n] times. *)
Fixpoint pressN (n : nat) (msg : Msg) (m : Model) : result Model :=
  match n with
  | O => Ok m
  | S n' =>
      r <- Update m msg ;;
      pressN n' msg (fst r)
  end.

End WithTermLib.

End messagebox.

(** A terminal without styling, to run the message box on concrete input:
    rendering returns the text as it is, the viewport holds its content, a
    string is as wide as it has bytes and the overlay is written in front
    of the base text. *)
#[global] Instance PlainTerm : TermLib := {|
  Style := unit;
  Style_Render := fun _ s => s;
  Style_Hotkey := fun s => s;
  Style_Center := fun _ => tt;
  Style_DefaultBorder := tt;
  Style_DefaultButton := tt;
  Style_DefaultSelectedButton := tt;
  Color := unit;
  Color_buttonHotkey := tt;
  Viewport := string;
  viewport_New := fun _ _ => "";
  viewport_SetContent := fun _ s => s;
  viewport_View := fun v => v;
  runewidth_StringWidth := fun s => Z.of_nat (String.length s);
  runewidth_Wrap := fun s _ => s;
  strings_TrimSpace := fun s => s;
  PlaceOverlay := fun _ _ fg bg => Ok (fg ++ bg)%string
|}.

(** The zero value of [messagebox.Model] on the plain terminal. *)
Definition zeroModel : messagebox.Model :=
  {| messagebox.viewport := "" : @Viewport PlainTerm;
     messagebox.box_ := None;
     messagebox.xpos := 0;
     messagebox.ypos := 0;
     messagebox.width := 0;
     messagebox.styles := messagebox.DefaultStyles |}.

(** The box of the example program: "Delete selected?" with the buttons
    Yes, No and All, raised on the zero model. *)
Definition deleteBox : messagebox.Model :=
  match messagebox.New zeroModel "Delete selected?" messagebox.YES_NO_ALL [] with
  | Ok m => m
  | Panic _ => zeroModel
  end.

(** An Ok/Cancel box raised on the zero model. *)
Definition okCancelBox : messagebox.Model :=
  match messagebox.New zeroModel "Proceed?" messagebox.OK_CANCEL [] with
  | Ok m => m
  | Panic _ => zeroModel
  end.

Definition keyOf (t : messagebox.KeyType) (s : string) : messagebox.Msg :=
  messagebox.MsgKey {| messagebox.Type__ := t; messagebox.String__ := s |}.

(** ** xtable

    xtable.go, which holds the table model, is not among the sources; only
    its test file xtable_test.go is.  The definitions of this module follow
    the specification of the table and are run on the repository's tests. *)

Module xtable.

(** Modelled from the spec: the type Column of the absent xtable.go,
    a title and a width. *)
Record Column : Type := {
  Title : string;
  Width : Z
}.

(** Modelled from the spec: the type Row of the absent xtable.go; the
    metadata, when present, is represented by the 64-bit hash it
    exposes. *)
Record Row : Type := {
  Data : list string;
  Metadata : option Z
}.

(** Modelled from the spec: the type Model of the absent xtable.go, the
    table state: columns, rows, cursor, viewport top and height, focus,
    the row-number switch and the index from hash to row position. *)
Record Model : Type := {
  cols : list Column;
  rows : list Row;
  cursor : Z;
  start : Z;
  height : Z;
  focus : bool;
  rowNumbers : bool;
  index : list (Z * Z)
}.

Definition set_cursor (m : Model) (c : Z) : Model :=
  {| cols := cols m; rows := rows m; cursor := c; start := start m;
     height := height m; focus := focus m; rowNumbers := rowNumbers m;
     index := index m |}.

(** Modelled from the spec: building the absent RowIndex, one entry per
    row whose metadata exposes a hash, mapping the hash to the position. *)
Fixpoint buildIndex (i : Z) (rs : list Row) : list (Z * Z) :=
  match rs with
  | [] => []
  | r :: rs' =>
      match Metadata r with
      | Some h => (h, i) :: buildIndex (i + 1) rs'
      | None => buildIndex (i + 1) rs'
      end
  end.

Definition set_rows (m : Model) (rs : list Row) : Model :=
  {| cols := cols m; rows := rs; cursor := cursor m; start := start m;
     height := height m; focus := focus m; rowNumbers := rowNumbers m;
     index := buildIndex 0 rs |}.

(** Modelled from the spec: the absent constructor New with the options
    WithColumns, WithRows and WithHeight; the cursor starts on the first
    row. *)
Definition New (cs : list Column) (rs : list Row) (h : Z) : Model :=
  {| cols := cs; rows := rs; cursor := 0; start := 0; height := h;
     focus := false; rowNumbers := false; index := buildIndex 0 rs |}.

(** Modelled from the spec: the absent Model.GetRowByHash, the position
    registered for the hash or -1. *)
Fixpoint lookupHash (ix : list (Z * Z)) (h : Z) : Z :=
  match ix with
  | [] => -1
  | (h', i) :: ix' => if h' =? h then i else lookupHash ix' h
  end.

Definition GetRowByHash (m : Model) (h : Z) : Z := lookupHash (index m) h.

(** The number of decimal digits of a non-negative number, at least 1. *)
Fixpoint digits_fuel (fuel : nat) (n : Z) : Z :=
  match fuel with
  | O => 1
  | S fuel' => if n <? 10 then 1 else 1 + digits_fuel fuel' (n / 10)
  end.

Definition decimalDigits (n : Z) : Z :=
  digits_fuel (Z.to_nat (Z.log2 n)) n.

(** Modelled from the spec: the absent function rowNumberColWidth.  The
    spec gives a formula (digits of the row count minus one) and
    examples (1 for 1..9 rows, 2 for 10..99, 3 for 100..999) that differ
    at 10, 100, ...; TestPad of xtable_test.go requires width 3 for 100
    rows, as the examples do, so the width is the number of decimal
    digits of the row count. *)
Definition rowNumberColWidth (rs : list Row) : Z :=
  decimalDigits (GoSlice.len rs).

(** The width the formula of the spec gives: the number of decimal
    digits of the row count minus one, at least 1. *)
Definition rowNumberColWidth_formula (n : Z) : Z :=
  Z.max 1 (decimalDigits (n - 1)).

Fixpoint spaces (n : nat) : string :=
  match n with
  | O => EmptyString
  | S n' => String " " (spaces n')
  end.

(** Modelled from the spec: the absent function pad, which right-justifies
    the marker or the row number to the column width. *)
Definition pad (colWidth : Z) (v : string) : string :=
  (spaces (Z.to_nat colWidth - String.length v) ++ v)%string.

(** Modelled from the spec: the deletion of the row at one position in
    the absent Model.RemoveRowByIndex; the rows before it stay, the rows
    after it move up by one. *)
Definition deleteAt (i : nat) (rs : list Row) : list Row :=
  (firstn i rs ++ skipn (S i) rs)%list.

(** Modelled from the spec: the repair of the cursor after a removal in
    the absent xtable.go, which must not leave the cursor outside the rows:
    while rows remain the cursor is at most the last position. *)
Definition clampCursor (m : Model) : Model :=
  if 0 <? GoSlice.len (rows m)
  then set_cursor m (GoInt.min (cursor m) (GoSlice.len (rows m) - 1))
  else m.

(** Modelled from the spec: the absent Model.RemoveRowByIndex.  An index
    inside [0, len(rows)) removes that row, rebuilds the hash index, keeps
    the cursor on a row and returns true (a row was removed).  An index
    outside changes nothing; for the value returned there the spec says
    false, but TestRemoveRowsByIndex of xtable_test.go requires true for
    index 10 on a table of four rows, so it is true when the table has
    rows, and false, as the spec says, when it has none. *)
Definition RemoveRowByIndex (m : Model) (i : Z) : Model * bool :=
  if (0 <=? i) && (i <? GoSlice.len (rows m))
  then (clampCursor (set_rows m (deleteAt (Z.to_nat i) (rows m))), true)
  else (m, 0 <? GoSlice.len (rows m)).

(** The value the spec gives to removeByIndex: whether a row was
    removed. *)
Definition didRemove (m : Model) (i : Z) : bool :=
  (0 <=? i) && (i <? GoSlice.len (rows m)).

(** Modelled from the spec: the absent Model.RemoveSelectedRow, which
    removes the row at the cursor, clamps the cursor to the last row if
    rows remain, and returns whether rows remain. *)
Definition RemoveSelectedRow (m : Model) : Model * bool :=
  let m' := fst (RemoveRowByIndex m (cursor m)) in
  if 0 <? GoSlice.len (rows m')
  then (set_cursor m' (GoInt.min (cursor m') (GoSlice.len (rows m') - 1)), true)
  else (m', false).

(** Modelled from the spec: the absent Model.RemoveRowByHash, removal by
    index after a successful lookup; a hash that no row is registered for
    leaves the table as it is and returns false. *)
Definition RemoveRowByHash (m : Model) (h : Z) : Model * bool :=
  let i := GetRowByHash m h in
  if i =? -1 then (m, false) else RemoveRowByIndex m i.

(** The hash index is the one built from the rows. *)
Definition indexInStep (m : Model) : Prop := index m = buildIndex 0 (rows m).

(** Modelled from the spec: the row test of the absent Model.Find, the
    term occurs in one of the data cells. *)
Definition rowMatches (term : string) (r : Row) : bool :=
  existsb (fun cell => GoStrings.Contains cell term) (Data r).

(** Modelled from the spec: the scan of the absent Model.Find over the
    rows from position [i] on, skipping those not after [fromIndex]. *)
Fixpoint findFrom (term : string) (fromIndex : Z) (i : Z) (rs : list Row)
  : option Z :=
  match rs with
  | [] => None
  | r :: rs' =>
      if (fromIndex <? i) && rowMatches term r then Some i
      else findFrom term fromIndex (i + 1) rs'
  end.

(** Modelled from the spec: the absent Model.Find. *)
Definition Find (m : Model) (term : string) (fromIndex : Z) : Model * bool :=
  match findFrom term fromIndex 0 (rows m) with
  | Some i => (set_cursor m i, true)
  | None => (m, false)
  end.

Inductive SortOrder : Type := SortAscending | SortDescending.

Inductive SortHint : Type := SortUnspecified | SortString | SortNumeric.

Definition digit_of (c : ascii) : option Z :=
  let n := nat_of_ascii c in
  if (48 <=? n)%nat && (n <=? 57)%nat then Some (Z.of_nat (n - 48)) else None.

(** Reads decimal digits: the number read after [acc], how many digits
    were read after [n], and the rest of the text. *)
Fixpoint read_digits (s : string) (acc : Z) (n : nat) : Z * nat * string :=
  match s with
  | EmptyString => (acc, n, s)
  | String c s' =>
      match digit_of c with
      | Some d => read_digits s' (acc * 10 + d) (S n)
      | None => (acc, n, s)
      end
  end.

(** Modelled from the spec: the parse of a cell as a number in the absent
    sort code.  Plain decimal literals (sign, digits, fraction) are read,
    and read as the exact decimal value: rounding to the nearest double is
    monotone, so two literals whose doubles differ compare as their exact
    values do.  Anything else counts as unparseable. *)
Definition ParseFloat (s : string) : option Q :=
  let '(neg, s1) :=
    match s with
    | String "-" r => (true, r)
    | String "+" r => (false, r)
    | _ => (false, s)
    end in
  let '(ip, ni, s2) := read_digits s1 0 0 in
  let '(num, nf, s3) :=
    match s2 with
    | String "." r => read_digits r ip 0
    | _ => (ip, O, s2)
    end in
  if (ni + nf =? 0)%nat then None
  else match s3 with
       | EmptyString =>
           Some (Qmake (if neg then - num else num)
                   (Z.to_pos (10 ^ Z.of_nat nf)))
       | _ => None
       end.

(** Modelled from the spec: the cell of a row in the sort column; the spec
    leaves a column outside the row open, it is read as empty here. *)
Definition cell (col : Z) (r : Row) : string :=
  nth (Z.to_nat col) (Data r) "".

(** Modelled from the spec: the string comparator, lexicographic over the
    cell text. *)
Definition lessString (col : Z) (a b : Row) : bool :=
  String.ltb (cell col a) (cell col b).

(** Modelled from the spec: the numeric comparator; an unparseable cell
    sorts as negative infinity. *)
Definition lessNumeric (col : Z) (a b : Row) : bool :=
  match ParseFloat (cell col a), ParseFloat (cell col b) with
  | Some x, Some y => negb (Qle_bool y x)
  | None, Some _ => true
  | _, None => false
  end.

(** Stable insertion: [x] goes before the first element that is not
    less than it. *)
Fixpoint insertStable (less : Row -> Row -> bool) (x : Row) (l : list Row)
  : list Row :=
  match l with
  | [] => [x]
  | y :: l' => if less y x then y :: insertStable less x l' else x :: l
  end.

Definition sortStable (less : Row -> Row -> bool) (l : list Row) : list Row :=
  fold_right (insertStable less) [] l.

(** Modelled from the spec: the absent Model.SortBy, a stable sort of the
    rows by one column; an unspecified hint is numeric when every cell of
    the column parses as a number; descending swaps the comparator's
    arguments. *)
Definition SortBy (m : Model) (col : Z) (direction : SortOrder)
  (hint : SortHint) : Model :=
  let numeric :=
    match hint with
    | SortNumeric => true
    | SortString => false
    | SortUnspecified =>
        forallb (fun r => match ParseFloat (cell col r) with
                          | Some _ => true
                          | None => false
                          end) (rows m)
    end in
  let less := if numeric then lessNumeric col else lessString col in
  let less' :=
    match direction with
    | SortAscending => less
    | SortDescending => fun a b => less b a
    end in
  set_rows m (sortStable less' (rows m)).

(** The row of a test table without metadata. *)
Definition row (d : list string) : Row := {| Data := d; Metadata := None |}.

(** The table of TestSortBy. *)
Definition sortTable : Model :=
  New [ {| Title := "Strings"; Width := 10 |};
        {| Title := "Ints"; Width := 10 |};
        {| Title := "Floats"; Width := 10 |} ]
      [ row ["abcdEfgh"; "42"; "0.72"];
        row ["qwerTYui"; "123"; "4.35"];
        row ["zxcvBNmj"; "-4"; "34.3"];
        row ["plmnPOiu"; "4543534"; "-23456.3"] ]
      5.

(** The table of TestFind. *)
Definition biscuits : Model :=
  New [ {| Title := "Name"; Width := 25 |};
        {| Title := "Country of Origin"; Width := 16 |};
        {| Title := "Dunk-able"; Width := 12 |} ]
      [ row ["Chocolate Digestives"; "UK"; "Yes"];
        row ["Tim Tams"; "Australia"; "No"];
        row ["Hobnobs"; "UK"; "Yes"];
        row ["Peanut Butter Cookie"; "USA"; "Yes"] ]
      5.

(** The table of the removal tests, built from four records with the
    hashes TestGetRowByHash lists. *)
Definition packets : Model :=
  New [ {| Title := "Name"; Width := 0 |};
        {| Title := "PacketSize"; Width := 0 |} ]
      [ {| Data := ["Chocolate Digestives"; "12"];
           Metadata := Some 0x40099b03ee546818 |};
        {| Data := ["Tim Tams"; "8"];
           Metadata := Some 0x73c93c25d05d3b20 |};
        {| Data := ["Hobnobs"; "10"];
           Metadata := Some 0x328fbeb31d4437e0 |};
        {| Data := ["Peanut Butter Cookie"; "8"];
           Metadata := Some 0xca7bd7aa9e6497d4 |} ]
      0.

(** The first cells of the rows, to read off a row order. *)
Definition firstCells (m : Model) : list string :=
  map (fun r => nth 0 (Data r) "") (rows m).

(** The cursor lies on a row whenever there is one. *)
Definition cursorOnRow (m : Model) : Prop :=
  rows m <> [] -> 0 <= cursor m < GoSlice.len (rows m).

(** [term] occurs in [s] as a run of consecutive bytes. *)
Definition occursIn (term s : string) : Prop :=
  exists pre post : string, s = (pre ++ term ++ post)%string.

(** Some data cell of the row holds [term]. *)
Definition rowHas (term : string) (r : Row) : Prop :=
  exists c : string, In c (Data r) /\ occursIn term c.

(** [deepEqual] of xtable_test.go, inner loop: the cells of a row of [a]
    from position [j] on against the cells [b[i].Data[j]]. *)
Fixpoint deepEqual_cells (fs : list string) (j : Z) (b : list Row) (i : Z)
  : result bool :=
  match fs with
  | [] => Ok true
  | f :: fs' =>
      bi <- GoSlice.index b i ;;
      g <- GoSlice.index (Data bi) j ;;
      if negb (String.eqb f g) then Ok false
      else deepEqual_cells fs' (j + 1) b i
  end.

(** [deepEqual], outer loop: the rows of [a] from position [i] on. *)
Fixpoint deepEqual_rows (a : list Row) (i : Z) (b : list Row) : result bool :=
  match a with
  | [] => Ok true
  | r :: a' =>
      same <- deepEqual_cells (Data r) 0 b i ;;
      if same then deepEqual_rows a' (i + 1) b else Ok false
  end.

(** [deepEqual] of xtable_test.go. *)
Definition deepEqual (a b : list Row) : result bool :=
  if negb (GoSlice.len a =? GoSlice.len b) then Ok false
  else deepEqual_rows a 0 b.

(** [hash/fnv]: one byte written to a 64-bit FNV-1a hash. *)
Definition fnv64a_write (h : Z) (c : Z) : Z :=
  (Z.lxor h c * 0x100000001b3) mod 2 ^ 64.

(** [fnv.New64a()], the bytes written in order, [Sum64()]. *)
Definition fnv64a (bs : list Z) : Z :=
  fold_left fnv64a_write bs 0xcbf29ce484222325.

Fixpoint bytesOf (s : string) : list Z :=
  match s with
  | EmptyString => []
  | String c s' => Z.of_nat (nat_of_ascii c) :: bytesOf s'
  end.

(** [intToBytes] of xtable_test.go: the bytes of the [int] as they lie in
    memory, here on a little-endian 64-bit target. *)
Definition intToBytes (i : Z) : list Z :=
  map (fun k => Z.shiftr (i mod 2 ^ 64) (8 * k) mod 256)
    [0; 1; 2; 3; 4; 5; 6; 7].

(** [rowData] and [newRowData] of xtable_test.go. *)
Record rowData : Type := {
  Name : string;
  PacketSize : Z;
  hash : Z
}.

Definition newRowData (s : string) (i : Z) : rowData :=
  {| Name := s; PacketSize := i;
     hash := fnv64a (bytesOf s ++ intToBytes i) |}.

(** The cells of [rb] start with the cells of [ra]. *)
Definition cellsPrefix (ra rb : Row) : Prop :=
  exists rest : list string, Data rb = (Data ra ++ rest)%list.

End xtable.

(** ** example/keys.go *)

Module example.

(** [isdigit] on a rune. *)
Definition isdigit (ascii : Z) : bool := (ascii >=? 48) && (ascii <=? 57).

(** [sortKeyToIndex]: the column a digit key sorts by. *)
Definition sortKeyToIndex (key : Z) : Z :=
  if negb (isdigit key) then 0
  else
    let ind := GoInt.sub key 48 in
    if ind =? 0 then 10 else ind.

Section Help.

(** [key.Binding] of the bubbles library, and the action of a binding,
    a function over the model of the example program. *)
Variables Binding Action : Type.

Record orderedKeyBinding : Type := {
  binding : Binding;
  order : Z;
  action : Action
}.

(** The comparison [FullHelp] sorts the bindings with. *)
Definition compareOrder (a b : orderedKeyBinding) : Z :=
  if order a >? order b then 1
  else if order a <? order b then -1
  else 0.

(** [s[i:j]] on a slice without spare capacity. *)
Definition slice {A : Type} (s : list A) (i j : Z) : result (list A) :=
  if (i <? 0) || (j <? i) || (GoSlice.len s <? j) then Panic IndexOutOfRange
  else Ok (firstn (Z.to_nat (j - i)) (skipn (Z.to_nat i) s)).

(** The loop of [FullHelp] over the sorted bindings, from index [i] on,
    with the columns built so far; [None] when the steps allowed run out. *)
Fixpoint FullHelp_loop (steps : nat) (orderedBindings : list orderedKeyBinding)
  (i : Z) (helpBindings : list (list Binding))
  : option (result (list (list Binding))) :=
  match steps with
  | O => None
  | S steps' =>
      if i <? GoSlice.len orderedBindings then
        let end_ := GoInt.add i 2 in
        let end_ := if end_ >? GoSlice.len orderedBindings
                    then GoSlice.len orderedBindings else end_ in
        match slice orderedBindings i end_ with
        | Panic p => Some (Panic p)
        | Ok part =>
            let col := map binding part in
            FullHelp_loop steps' orderedBindings (GoInt.add i 2)
              (helpBindings ++ [col])%list
        end
      else Some (Ok helpBindings)
  end.

(** [FullHelp] from the sorted bindings on: the columns of the help. *)
Definition FullHelp_columns (orderedBindings : list orderedKeyBinding)
  : option (result (list (list Binding))) :=
  FullHelp_loop (S (List.length orderedBindings)) orderedBindings 0 [].

End Help.

(** Two entries a column, a last single entry in a column of its own. *)
Fixpoint pairUp {A : Type} (l : list A) : list (list A) :=
  match l with
  | [] => []
  | [x] => [[x]]
  | x :: y :: rest => [x; y] :: pairUp rest
  end.

End example.

(** * Properties *)

(** ** Go runtime lemmas *)

Lemma wrap_small (z : Z) : - 2 ^ 63 <= z < 2 ^ 63 -> GoInt.wrap z = z.
Proof.
  intros H. unfold GoInt.wrap.
  rewrite Z.mod_small by lia. lia.
Qed.

Lemma len_nonneg {A : Type} (s : list A) : 0 <= GoSlice.len s.
Proof. unfold GoSlice.len. lia. Qed.

Lemma len_nil_iff {A : Type} (s : list A) : GoSlice.len s = 0 <-> s = [].
Proof.
  unfold GoSlice.len. destruct s as [|a s]; cbn [List.length]; split;
    intros H; try reflexivity; try discriminate; lia.
Qed.

Lemma len_cons {A : Type} (a : A) (s : list A) :
  GoSlice.len (a :: s) = GoSlice.len s + 1.
Proof. unfold GoSlice.len. cbn [List.length]. lia. Qed.

Lemma index_cons_succ {A : Type} (a : A) (s : list A) (i : Z) :
  0 <= i -> GoSlice.index (a :: s) (i + 1) = GoSlice.index s i.
Proof.
  intros Hi. unfold GoSlice.index.
  destruct (Z.ltb_spec (i + 1) 0); [lia|].
  destruct (Z.ltb_spec i 0); [lia|].
  replace (Z.to_nat (i + 1)) with (S (Z.to_nat i)) by lia.
  reflexivity.
Qed.

Lemma index_in_range {A : Type} (s : list A) (i : Z) :
  0 <= i < GoSlice.len s -> exists a, GoSlice.index s i = Ok a.
Proof.
  intros [Hlo Hhi]. unfold GoSlice.index, GoSlice.len in *.
  destruct (Z.ltb_spec i 0); [lia|].
  destruct (nth_error s (Z.to_nat i)) as [a|] eqn:E.
  - exists a. reflexivity.
  - apply nth_error_None in E. lia.
Qed.

Lemma index_nil {A : Type} (i : Z) :
  GoSlice.index (@nil A) i = Panic IndexOutOfRange.
Proof.
  unfold GoSlice.index. destruct (i <? 0); [reflexivity|].
  destruct (Z.to_nat i); reflexivity.
Qed.

(** [slices.Index] finds nothing, or a position of the slice. *)
Lemma Index_range (s : list Z) (v : Z) :
  GoSlice.Index s v = -1 \/ 0 <= GoSlice.Index s v < GoSlice.len s.
Proof.
  induction s as [|x s IH]; cbn [GoSlice.Index]; [left; reflexivity|].
  rewrite len_cons.
  destruct (x =? v).
  - right. pose proof (len_nonneg s). lia.
  - destruct (Z.eqb_spec (GoSlice.Index s v) (-1)) as [E|E].
    + left. reflexivity.
    + right. destruct IH as [IH|IH]; [contradiction|lia].
Qed.

(** Where [slices.Index] finds a position, the value sits there. *)
Lemma Index_found (s : list Z) (v : Z) :
  GoSlice.Index s v <> -1 -> GoSlice.index s (GoSlice.Index s v) = Ok v.
Proof.
  induction s as [|x s IH]; cbn [GoSlice.Index]; [congruence|].
  destruct (Z.eqb_spec x v) as [->|Hxv].
  - intros _. reflexivity.
  - destruct (Z.eqb_spec (GoSlice.Index s v) (-1)) as [E|E]; [congruence|].
    intros _.
    destruct (Index_range s v) as [R|R]; [contradiction|].
    rewrite index_cons_succ by lia. apply IH. exact E.
Qed.

Lemma Index_In (s : list Z) (v : Z) : In v s <-> GoSlice.Index s v <> -1.
Proof.
  induction s as [|x s IH]; cbn [GoSlice.Index In].
  - split; [contradiction|congruence].
  - destruct (Z.eqb_spec x v) as [->|Hxv].
    + split; [lia|left; reflexivity].
    + destruct (Z.eqb_spec (GoSlice.Index s v) (-1)) as [E|E].
      * split; [intros [H|H]; [contradiction|apply IH in H; contradiction]
               |congruence].
      * split; [intros _|intros _; right; apply IH; exact E].
        destruct (Index_range s v) as [R|R]; [contradiction|lia].
Qed.

Lemma Contains_In (s : list Z) (v : Z) : GoSlice.Contains s v = true <-> In v s.
Proof.
  unfold GoSlice.Contains. rewrite Index_In.
  destruct (Index_range s v) as [R|R]; rewrite Z.geb_le; lia.
Qed.

Lemma StronglySorted_filter {A : Type} (R : A -> A -> Prop) (f : A -> bool)
  (l : list A) : StronglySorted R l -> StronglySorted R (filter f l).
Proof.
  induction 1 as [|a l Hl IH Ha]; cbn [filter]; [constructor|].
  destruct (f a); [|exact IH].
  constructor; [exact IH|].
  apply Forall_forall. intros x Hx.
  apply filter_In in Hx. destruct Hx as [Hx _].
  rewrite Forall_forall in Ha. apply Ha. exact Hx.
Qed.

Lemma filter_len_le {A : Type} (f : A -> bool) (l : list A) :
  GoSlice.len (filter f l) <= GoSlice.len l.
Proof.
  unfold GoSlice.len.
  induction l as [|a l IH]; cbn [filter List.length]; [lia|].
  destruct (f a); cbn [List.length]; lia.
Qed.

(** ** messagebox: construction *)

Section MessageBoxFacts.

Import messagebox.
Context {T : TermLib}.

Lemma Button_render_known (b : Button) (style : Styles) (selected : bool) :
  In b displayOrder -> is_Ok (Button_render b style selected) = true.
Proof.
  unfold displayOrder. cbn [In].
  intros [<-|[<-|[<-|[<-|[<-|[]]]]]]; vm_compute; reflexivity.
Qed.

Lemma keyBinding_known (b : Button) :
  In b displayOrder -> is_Ok (keyBinding b) = true.
Proof.
  unfold displayOrder. cbn [In].
  intros [<-|[<-|[<-|[<-|[<-|[]]]]]]; vm_compute; reflexivity.
Qed.

Lemma renderButtons_loop_known (style : Styles) (sel : Z) (bs : list Button) :
  incl bs displayOrder ->
  forall i, is_Ok (renderButtons_loop style sel i bs) = true.
Proof.
  induction bs as [|b bs IH]; intros Hin i; cbn [renderButtons_loop];
    [reflexivity|].
  pose proof (Button_render_known b style (i =? sel)
                (Hin b (or_introl eq_refl))) as Hb.
  destruct (Button_render b style (i =? sel)) as [s|p]; [|discriminate].
  cbn [bind].
  assert (Hbs : incl bs displayOrder)
    by (intros x Hx; apply Hin; right; exact Hx).
  specialize (IH Hbs (i + 1)).
  destruct (renderButtons_loop style sel (i + 1) bs); [reflexivity|discriminate].
Qed.

Lemma matchBoundKey_known (k : KeyMsg) (bs : list Button) :
  incl bs displayOrder -> is_Ok (matchBoundKey k bs) = true.
Proof.
  induction bs as [|b bs IH]; intros Hin; cbn [matchBoundKey]; [reflexivity|].
  pose proof (keyBinding_known b (Hin b (or_introl eq_refl))) as Hb.
  destruct (keyBinding b) as [keys|p]; [|discriminate].
  cbn [bind]. destruct (key_Matches k keys); [reflexivity|].
  apply IH. intros x Hx. apply Hin. right. exact Hx.
Qed.

(** [New] returns, and the box of the model it returns holds the buttons
    of the display order whose bit is set in [boxType], with the selection
    computed from them. *)
Lemma New_returns (m : Model) (text : string) (boxType : Type_)
  (opts : list optionFunc) :
  exists (m' : Model) (b : box),
    New m text boxType opts = Ok m' /\ box_ m' = Some b /\
    buttons b = filter (fun x => negb (Z.land boxType x =? 0)) displayOrder /\
    selectedButton b =
      (if GoSlice.len (buttons b) =? 1 then 0
       else
         let s := GoSlice.Index (buttons b) MB_CANCEL in
         let s := if s =? -1 then GoSlice.Index (buttons b) MB_NO else s in
         if s =? -1 then 0 else s).
Proof.
  unfold New, renderButtons. cbn [box_ buttons selectedButton styles].
  set (bs := filter (fun x => negb (Z.land boxType x =? 0)) displayOrder).
  set (o := fold_left (fun (o : options) (opt : options -> options) => opt o)
              opts _).
  set (st := match o_style o with None => DefaultStyles | Some s => s end).
  set (sel := if GoSlice.len bs =? 1 then 0 else _).
  pose proof (renderButtons_loop_known st sel bs (incl_filter _ _) 0) as Hl.
  destruct (renderButtons_loop st sel 0 bs) as [l|p]; [|discriminate].
  cbn [bind]. eexists. eexists.
  split; [reflexivity|]. cbn [box_ set_message buttons selectedButton].
  split; [reflexivity|]. split; reflexivity.
Qed.

Lemma New_box_ok (m m' : Model) (text : string) (boxType : Type_)
  (opts : list optionFunc) (b : box) :
  New m text boxType opts = Ok m' -> box_ m' = Some b -> box_ok b.
Proof.
  intros HN Hb.
  destruct (New_returns m text boxType opts) as (m1 & b1 & E1 & Eb & Ebs & Es).
  rewrite HN in E1. injection E1 as <-. rewrite Hb in Eb. injection Eb as <-.
  unfold box_ok. split; [|split].
  - rewrite Ebs. apply incl_filter.
  - rewrite Ebs. apply (filter_len_le _ displayOrder).
  - destruct (buttons b) as [|x bs] eqn:Ebut.
    + left. split; [reflexivity|]. rewrite Es. reflexivity.
    + right. rewrite Es. clear Es. unfold Button in *.
      pose proof (len_nonneg bs) as Hn. rewrite len_cons in *.
      destruct (GoSlice.len bs + 1 =? 1); [lia|].
      cbv zeta.
      pose proof (Index_range (x :: bs) MB_CANCEL) as RC.
      pose proof (Index_range (x :: bs) MB_NO) as RN.
      rewrite len_cons in RC, RN.
      destruct (Z.eqb_spec (GoSlice.Index (x :: bs) MB_CANCEL) (-1)) as [EC|EC].
      * destruct (Z.eqb_spec (GoSlice.Index (x :: bs) MB_NO) (-1)); lia.
      * destruct (Z.eqb_spec (GoSlice.Index (x :: bs) MB_CANCEL) (-1)); lia.
Qed.

End MessageBoxFacts.

(** ** messagebox: the state machine *)

Section MessageBoxUpdate.

Import messagebox.
Context {T : TermLib}.

Lemma rem_zero (a : Z) : GoInt.rem a 0 = Panic DivideByZero.
Proof. reflexivity. Qed.

Lemma cycle_forward (s n : Z) :
  0 <= s < n -> n <= 5 ->
  exists r, GoInt.rem (GoInt.add s 1) n = Ok r /\ 0 <= r < n.
Proof.
  intros Hs Hn. unfold GoInt.rem, GoInt.add.
  rewrite wrap_small by lia.
  destruct (Z.eqb_spec n 0); [lia|].
  eexists. split; [reflexivity|]. apply Z.rem_bound_pos; lia.
Qed.

Lemma cycle_backward (s n : Z) :
  0 <= s < n -> n <= 5 ->
  exists r, GoInt.rem (GoInt.sub (GoInt.add n s) 1) n = Ok r /\ 0 <= r < n.
Proof.
  intros Hs Hn. unfold GoInt.rem, GoInt.add, GoInt.sub.
  rewrite (wrap_small (n + s)) by lia. rewrite wrap_small by lia.
  destruct (Z.eqb_spec n 0); [lia|].
  eexists. split; [reflexivity|]. apply Z.rem_bound_pos; lia.
Qed.

Lemma box_ok_select (b : box) (r : Z) :
  box_ok b -> 0 <= r < GoSlice.len (buttons b) ->
  box_ok (set_selectedButton b r).
Proof.
  intros (Hin & Hlen & _) Hr. unfold box_ok. cbn [set_selectedButton buttons
    selectedButton]. split; [exact Hin|]. split; [exact Hlen|]. right. exact Hr.
Qed.

(** A box with buttons selects one of them. *)
Lemma box_ok_nonempty (b : box) :
  box_ok b -> buttons b <> [] ->
  0 <= selectedButton b < GoSlice.len (buttons b).
Proof.
  intros (_ & _ & [[E _]|H]) Hne; [contradiction|exact H].
Qed.

(** The escape branch, for every active box: the model returned has no
    box, and the message is the function value [buttonToReturn]. *)
Lemma Update_escape (m : Model) (k : KeyMsg) :
  IsActive m = true -> Type__ k = KeyEsc ->
  Update m (MsgKey k)
  = Ok (set_box m None, Some (MsgButtonToReturn (set_box m None))).
Proof.
  unfold IsActive, Update. intros Ha Hk.
  destruct (box_ m); [|discriminate]. rewrite Hk. reflexivity.
Qed.

(** The cycling branches and the confirm branch panic on an empty
    button list. *)
Lemma Update_empty_panics (m : Model) (b : box) (k : KeyMsg) :
  box_ m = Some b -> buttons b = [] ->
  (Type__ k = KeyCtrlI \/ Type__ k = KeyRight \/
   Type__ k = KeyShiftTab \/ Type__ k = KeyLeft ->
   Update m (MsgKey k) = Panic DivideByZero) /\
  (Type__ k = KeySpace \/ Type__ k = KeyEnter ->
   Update m (MsgKey k) = Panic IndexOutOfRange).
Proof.
  intros Hb He. unfold Update. rewrite Hb, He.
  split.
  - intros [H|[H|[H|H]]]; rewrite H; reflexivity.
  - intros [H|H]; rewrite H; rewrite index_nil; reflexivity.
Qed.

(** [Update] on a box that satisfies [box_ok] and has buttons: it
    returns, and the box, if it is still there, has the same buttons and
    selects one of them. *)
Lemma Update_nonempty (m : Model) (b : box) (msg : Msg) :
  box_ m = Some b -> box_ok b -> buttons b <> [] ->
  exists (m' : Model) (cmd : option Msg),
    Update m msg = Ok (m', cmd) /\
    forall b', box_ m' = Some b' ->
      buttons b' = buttons b /\ box_ok b'.
Proof.
  intros Hb Hok Hne.
  pose proof (box_ok_nonempty b Hok Hne) as Hsel.
  pose proof Hok as (Hin & Hlen & _).
  assert (Hsame : forall b', box_ m = Some b' ->
                             buttons b' = buttons b /\ box_ok b').
  { intros b' Hb'. rewrite Hb in Hb'. injection Hb' as <-. split; trivial. }
  unfold Update. rewrite Hb.
  destruct msg as [k|btn|cap|];
    try (exists m, None; split; [reflexivity|exact Hsame]).
  destruct (Type__ k) eqn:Hk.
  - eexists. eexists. split; [reflexivity|].
    cbn [set_box box_]. discriminate.
  - destruct (cycle_forward _ _ Hsel Hlen) as (r & -> & Hr). cbn [bind].
    eexists. eexists. split; [reflexivity|]. cbn [set_box box_].
    intros b' E. injection E as <-. split; [reflexivity|].
    apply box_ok_select; assumption.
  - destruct (cycle_forward _ _ Hsel Hlen) as (r & -> & Hr). cbn [bind].
    eexists. eexists. split; [reflexivity|]. cbn [set_box box_].
    intros b' E. injection E as <-. split; [reflexivity|].
    apply box_ok_select; assumption.
  - destruct (cycle_backward _ _ Hsel Hlen) as (r & -> & Hr). cbn [bind].
    eexists. eexists. split; [reflexivity|]. cbn [set_box box_].
    intros b' E. injection E as <-. split; [reflexivity|].
    apply box_ok_select; assumption.
  - destruct (cycle_backward _ _ Hsel Hlen) as (r & -> & Hr). cbn [bind].
    eexists. eexists. split; [reflexivity|]. cbn [set_box box_].
    intros b' E. injection E as <-. split; [reflexivity|].
    apply box_ok_select; assumption.
  - destruct (index_in_range _ _ Hsel) as (a & ->). cbn [bind].
    eexists. eexists. split; [reflexivity|]. cbn [set_box box_]. discriminate.
  - destruct (index_in_range _ _ Hsel) as (a & ->). cbn [bind].
    eexists. eexists. split; [reflexivity|]. cbn [set_box box_]. discriminate.
  - pose proof (matchBoundKey_known k (buttons b) Hin) as Hm.
    destruct (matchBoundKey k (buttons b)) as [[btn|]|p]; [| |discriminate];
      cbn [bind].
    + eexists. eexists. split; [reflexivity|]. cbn [set_box box_]. discriminate.
    + exists m, None. split; [reflexivity|exact Hsame].
Qed.

(** [Update] keeps [box_ok], with or without buttons. *)
Lemma Update_keeps_box_ok (m m' : Model) (msg : Msg) (cmd : option Msg) :
  (forall b, box_ m = Some b -> box_ok b) ->
  Update m msg = Ok (m', cmd) ->
  forall b', box_ m' = Some b' -> box_ok b'.
Proof.
  intros Hinv HU b' Hb'.
  destruct (box_ m) as [b|] eqn:Hb.
  - destruct (buttons b) as [|x bs] eqn:Ebs.
    + (* no buttons: the branches that return leave the box as it is *)
      unfold Update in HU. rewrite Hb in HU.
      destruct msg as [k|btn|cap|];
        try (injection HU as <- <-; rewrite Hb in Hb'; apply Hinv; exact Hb').
      destruct (Type__ k); rewrite ?Ebs in HU; cbn in HU;
        try discriminate;
        try (injection HU as <- <-; cbn [set_box box_] in Hb'; discriminate).
      * rewrite index_nil in HU. discriminate.
      * rewrite index_nil in HU. discriminate.
      * injection HU as <- <-. rewrite Hb in Hb'. apply Hinv. exact Hb'.
    + assert (Hne : buttons b <> []) by (rewrite Ebs; discriminate).
      destruct (Update_nonempty m b msg Hb (Hinv b eq_refl) Hne)
        as (m1 & cmd1 & E & H).
      rewrite HU in E. injection E as <- <-.
      apply (H b' Hb').
  - unfold Update in HU. rewrite Hb in HU. injection HU as <- <-.
    rewrite Hb in Hb'. discriminate.
Qed.

(** Every box a host can hold satisfies [box_ok]. *)
Lemma reachable_box_ok (m : Model) :
  reachable m -> forall b, box_ m = Some b -> box_ok b.
Proof.
  induction 1 as [m Hnone|m m' text boxType opts Hm IH HN
                 |m m' msg cmd Hm IH HU]; intros b Hb.
  - rewrite Hnone in Hb. discriminate.
  - exact (New_box_ok m m' text boxType opts b HN Hb).
  - exact (Update_keeps_box_ok m m' msg cmd IH HU b Hb).
Qed.

End MessageBoxUpdate.

(** ** messagebox: the stated properties *)

Section MessageBoxProperties.

Import messagebox.
Context {T : TermLib}.

Lemma displayOrder_sorted :
  StronglySorted (fun x y => displayRank x < displayRank y) displayOrder.
Proof.
  unfold displayOrder.
  repeat (constructor; [|repeat constructor; vm_compute; reflexivity]).
  constructor.
Qed.

Lemma requested_iff (boxType x : Z) :
  negb (Z.land boxType x =? 0) = true <-> Z.land boxType x <> 0.
Proof.
  destruct (Z.eqb_spec (Z.land boxType x) 0); cbn [negb]; split;
    congruence.
Qed.

(** C4: every call to [New] returns a model whose box holds exactly the
    buttons requested by [boxType], in the display order Ok, Yes, No, All,
    Cancel; the selection is 0 for a single button, otherwise the position
    of Cancel if present, else that of No if present, else 0. *)
Theorem C4_New_buttons_and_initial_selection (m : Model) (text : string)
  (boxType : Type_) (opts : list optionFunc) :
  exists (m' : Model) (b : box),
    New m text boxType opts = Ok m' /\ box_ m' = Some b /\
    (forall x, In x (buttons b) <->
               In x [MB_OK; MB_YES; MB_NO; MB_ALL; MB_CANCEL] /\
               Z.land boxType x <> 0) /\
    StronglySorted (fun x y => displayRank x < displayRank y) (buttons b) /\
    (forall x, buttons b = [x] ->
               GoSlice.index (buttons b) (selectedButton b) = Ok x) /\
    (GoSlice.len (buttons b) <> 1 -> In MB_CANCEL (buttons b) ->
     GoSlice.index (buttons b) (selectedButton b) = Ok MB_CANCEL) /\
    (GoSlice.len (buttons b) <> 1 -> ~ In MB_CANCEL (buttons b) ->
     In MB_NO (buttons b) ->
     GoSlice.index (buttons b) (selectedButton b) = Ok MB_NO) /\
    (GoSlice.len (buttons b) <> 1 -> ~ In MB_CANCEL (buttons b) ->
     ~ In MB_NO (buttons b) -> selectedButton b = 0).
Proof.
  destruct (New_returns m text boxType opts) as (m' & b & HN & Hb & Ebs & Es).
  exists m', b. split; [exact HN|]. split; [exact Hb|].
  split; [|split; [|split; [|split; [|split]]]].
  - intros x. rewrite Ebs, filter_In, requested_iff. reflexivity.
  - rewrite Ebs. apply StronglySorted_filter. exact displayOrder_sorted.
  - intros x Ex. rewrite Es, Ex. reflexivity.
  - intros Hlen HC. rewrite Es.
    destruct (Z.eqb_spec (GoSlice.len (buttons b)) 1); [contradiction|].
    cbv zeta. apply Index_In in HC.
    destruct (Z.eqb_spec (GoSlice.Index (buttons b) MB_CANCEL) (-1));
      [contradiction|].
    destruct (Z.eqb_spec (GoSlice.Index (buttons b) MB_CANCEL) (-1));
      [contradiction|].
    apply Index_found. assumption.
  - intros Hlen HC HN'. rewrite Es.
    destruct (Z.eqb_spec (GoSlice.len (buttons b)) 1); [contradiction|].
    cbv zeta. rewrite Index_In in HC. apply Index_In in HN'.
    destruct (Z.eqb_spec (GoSlice.Index (buttons b) MB_CANCEL) (-1));
      [|contradiction].
    destruct (Z.eqb_spec (GoSlice.Index (buttons b) MB_NO) (-1));
      [contradiction|].
    apply Index_found. assumption.
  - intros Hlen HC HN'. rewrite Es.
    destruct (Z.eqb_spec (GoSlice.len (buttons b)) 1); [contradiction|].
    cbv zeta. rewrite Index_In in HC, HN'.
    destruct (Z.eqb_spec (GoSlice.Index (buttons b) MB_CANCEL) (-1));
      [|contradiction].
    destruct (Z.eqb_spec (GoSlice.Index (buttons b) MB_NO) (-1));
      [reflexivity|contradiction].
Qed.

(** C8: on every active message box a host can hold whose button list is
    not empty, a space or enter key emits the button stored at index
    [selectedButton] and leaves the model inactive. *)
Theorem C8_confirm_emits_selected_button (m : Model) (b : box) (k : KeyMsg) :
  reachable m -> box_ m = Some b -> buttons b <> [] ->
  Type__ k = KeySpace \/ Type__ k = KeyEnter ->
  exists (btn : Button) (m' : Model),
    GoSlice.index (buttons b) (selectedButton b) = Ok btn /\
    Update m (MsgKey k) = Ok (m', Some (MsgButton btn)) /\
    IsActive m' = false.
Proof.
  intros Hr Hb Hne Hk.
  pose proof (box_ok_nonempty b (reachable_box_ok m Hr b Hb) Hne) as Hsel.
  destruct (index_in_range _ _ Hsel) as (btn & Ebtn).
  exists btn, (set_box m None). split; [exact Ebtn|].
  unfold Update. rewrite Hb.
  destruct Hk as [-> | ->]; rewrite Ebtn; split; reflexivity.
Qed.

(** C9: while no message box is active, [Render] returns the base content
    as it is and leaves the model as it was. *)
Theorem C9_Render_inactive_returns_content (m : Model) (content : string) :
  IsActive m = false -> Render m content = Ok (m, content).
Proof.
  unfold IsActive, Render. destruct (box_ m); [discriminate|reflexivity].
Qed.

Lemma no_shared_bit (boxType x : Z) :
  Z.land boxType allButtons = 0 -> Z.land allButtons x = x ->
  Z.land boxType x = 0.
Proof.
  intros H0 Hx. rewrite <- Hx, Z.land_assoc, H0. apply Z.land_0_l.
Qed.

(** C10: a [boxType] without any of the five button bits gives an active
    box with an empty button list; on such a box the cycling branches
    divide by zero and the confirm branch indexes out of range; on the
    boxes a host can hold these branches return exactly when the button
    list is not empty, and then every [Update] returns and leaves
    [selectedButton] within the button list. *)
Theorem C10_empty_button_list_panics_and_selection_stays_in_range :
  (forall (m : Model) (text : string) (boxType : Type_)
          (opts : list optionFunc),
      Z.land boxType allButtons = 0 ->
      exists (m' : Model) (b : box),
        New m text boxType opts = Ok m' /\ IsActive m' = true /\
        box_ m' = Some b /\ buttons b = []) /\
  (forall (m : Model) (b : box) (k : KeyMsg),
      box_ m = Some b -> buttons b = [] ->
      (Type__ k = KeyCtrlI \/ Type__ k = KeyRight \/
       Type__ k = KeyShiftTab \/ Type__ k = KeyLeft ->
       Update m (MsgKey k) = Panic DivideByZero) /\
      (Type__ k = KeySpace \/ Type__ k = KeyEnter ->
       Update m (MsgKey k) = Panic IndexOutOfRange)) /\
  (forall (m : Model) (b : box) (k : KeyMsg),
      reachable m -> box_ m = Some b ->
      cyclesOrConfirms (Type__ k) = true ->
      (is_Ok (Update m (MsgKey k)) = true <-> buttons b <> [])) /\
  (forall (m : Model) (b : box) (msg : Msg),
      reachable m -> box_ m = Some b -> buttons b <> [] ->
      exists (m' : Model) (cmd : option Msg),
        Update m msg = Ok (m', cmd) /\
        forall b', box_ m' = Some b' ->
          buttons b' = buttons b /\
          0 <= selectedButton b' < GoSlice.len (buttons b')).
Proof.
  split; [|split; [|split]].
  - intros m text boxType opts H0.
    destruct (New_returns m text boxType opts) as (m' & b & HN & Hb & Ebs & _).
    exists m', b. split; [exact HN|]. split; [unfold IsActive; rewrite Hb;
      reflexivity|]. split; [exact Hb|].
    rewrite Ebs. unfold displayOrder. cbn [filter].
    rewrite (no_shared_bit boxType MB_OK H0 eq_refl),
      (no_shared_bit boxType MB_YES H0 eq_refl),
      (no_shared_bit boxType MB_NO H0 eq_refl),
      (no_shared_bit boxType MB_ALL H0 eq_refl),
      (no_shared_bit boxType MB_CANCEL H0 eq_refl).
    reflexivity.
  - intros m b k Hb He. exact (Update_empty_panics m b k Hb He).
  - intros m b k Hr Hb Hk. split.
    + intros HOk He.
      destruct (Update_empty_panics m b k Hb He) as [Hc Hs].
      destruct (Type__ k) eqn:Et; try discriminate;
        try (rewrite Hc in HOk by tauto; discriminate);
        rewrite Hs in HOk by tauto; discriminate.
    + intros Hne.
      destruct (Update_nonempty m b (MsgKey k) Hb
                  (reachable_box_ok m Hr b Hb) Hne) as (m' & cmd & -> & _).
      reflexivity.
  - intros m b msg Hr Hb Hne.
    destruct (Update_nonempty m b msg Hb (reachable_box_ok m Hr b Hb) Hne)
      as (m' & cmd & HU & H).
    exists m', cmd. split; [exact HU|].
    intros b' Hb'. destruct (H b' Hb') as [Eb Hok].
    split; [exact Eb|]. apply box_ok_nonempty; [exact Hok|].
    rewrite Eb. exact Hne.
Qed.

End MessageBoxProperties.

(** C1, on the Ok/Cancel box: the escape key leaves the model inactive, but
    the message emitted is the function value [buttonToReturn] itself, not
    the button Cancel; and that function, once called, dereferences the box
    the branch has already set to nil. *)
Theorem C1_escape_emits_function_value_not_button :
  exists (b : messagebox.box) (m' : messagebox.Model),
    messagebox.box_ okCancelBox = Some b /\
    messagebox.buttons b = [messagebox.MB_OK; messagebox.MB_CANCEL] /\
    messagebox.Update okCancelBox (keyOf messagebox.KeyEsc "esc")
    = Ok (m', Some (messagebox.MsgButtonToReturn m')) /\
    messagebox.IsActive m' = false /\
    messagebox.MsgButtonToReturn m' <> messagebox.MsgButton messagebox.MB_CANCEL /\
    messagebox.buttonToReturn m' = Panic NilDereference.
Proof.
  eexists. eexists.
  split; [vm_compute; reflexivity|].
  split; [reflexivity|].
  split; [apply Update_escape; reflexivity|].
  split; [reflexivity|].
  split; [discriminate|reflexivity].
Qed.

Section MessageBoxRuns.

Import messagebox.

(** The box the example program raises: Yes, No and All, with No
    selected. *)
Example deleteBox_box :
  box_ deleteBox
  = Some {| message := "Delete selected?";
            buttons := [MB_YES; MB_NO; MB_ALL];
            selectedButton := 1 |}.
Proof. vm_compute. reflexivity. Qed.

Lemma deleteBox_reachable : reachable deleteBox.
Proof.
  apply (reach_New zeroModel deleteBox "Delete selected?" YES_NO_ALL []).
  - apply reach_inactive. reflexivity.
  - vm_compute. reflexivity.
Defined.

(** A type without button bits, such as 1 or 64, gives a box without
    buttons, on which tab and space panic. *)
Example New_without_buttons :
  exists m,
    New zeroModel "Proceed?" 64 [] = Ok m /\
    Update m (keyOf KeyCtrlI "tab") = Panic DivideByZero /\
    Update m (keyOf KeyShiftTab "shift+tab") = Panic DivideByZero /\
    Update m (keyOf KeyEnter "enter") = Panic IndexOutOfRange.
Proof. eexists. split; [vm_compute; reflexivity|]. repeat split. Qed.

(** Tab walks through the buttons and wraps around. *)
Example deleteBox_tab_twice :
  (r1 <- Update deleteBox (keyOf KeyCtrlI "tab") ;;
   r2 <- Update (fst r1) (keyOf KeyCtrlI "tab") ;;
   Ok (option_map selectedButton (box_ (fst r1)),
       option_map selectedButton (box_ (fst r2))))
  = Ok (Some 2, Some 0).
Proof. vm_compute. reflexivity. Qed.

(** The hotkey of a button dismisses the box with that button. *)
Example deleteBox_hotkey :
  exists m', Update deleteBox (keyOf (KeyOther 0) "y")
             = Ok (m', Some (MsgButton MB_YES)) /\ IsActive m' = false.
Proof. eexists. split; [vm_compute; reflexivity|reflexivity]. Qed.

End MessageBoxRuns.

Lemma C8_confirm_witness :
  (messagebox.reachable deleteBox /\
   messagebox.box_ deleteBox
   = Some {| messagebox.message := "Delete selected?";
             messagebox.buttons :=
               [messagebox.MB_YES; messagebox.MB_NO; messagebox.MB_ALL];
             messagebox.selectedButton := 1 |}) /\
  exists (btn : messagebox.Button) (m' : messagebox.Model),
    GoSlice.index [messagebox.MB_YES; messagebox.MB_NO; messagebox.MB_ALL] 1
    = Ok btn /\
    messagebox.Update deleteBox (keyOf messagebox.KeySpace " ")
    = Ok (m', Some (messagebox.MsgButton btn)) /\
    messagebox.IsActive m' = false.
Proof.
  split; [split; [exact deleteBox_reachable|vm_compute; reflexivity]|].
  apply (C8_confirm_emits_selected_button deleteBox
           {| messagebox.message := "Delete selected?";
              messagebox.buttons :=
                [messagebox.MB_YES; messagebox.MB_NO; messagebox.MB_ALL];
              messagebox.selectedButton := 1 |}
           {| messagebox.Type__ := messagebox.KeySpace;
              messagebox.String__ := " " |}).
  - exact deleteBox_reachable.
  - vm_compute. reflexivity.
  - discriminate.
  - left. reflexivity.
Defined.

Lemma C10_empty_button_list_witness :
  (exists (m' : messagebox.Model) (b : messagebox.box),
      messagebox.New zeroModel "Proceed?" 64 [] = Ok m' /\
      messagebox.IsActive m' = true /\
      messagebox.box_ m' = Some b /\ messagebox.buttons b = []) /\
  (exists (m' : messagebox.Model) (cmd : option messagebox.Msg),
      messagebox.Update deleteBox (keyOf messagebox.KeyCtrlI "tab")
      = Ok (m', cmd) /\
      forall b', messagebox.box_ m' = Some b' ->
        messagebox.buttons b'
        = [messagebox.MB_YES; messagebox.MB_NO; messagebox.MB_ALL] /\
        0 <= messagebox.selectedButton b'
          < GoSlice.len (messagebox.buttons b')).
Proof.
  destruct (C10_empty_button_list_panics_and_selection_stays_in_range
              (T := PlainTerm)) as (Hnew & _ & _ & Hsel).
  split.
  - apply Hnew. reflexivity.
  - apply (Hsel deleteBox
             {| messagebox.message := "Delete selected?";
                messagebox.buttons :=
                  [messagebox.MB_YES; messagebox.MB_NO; messagebox.MB_ALL];
                messagebox.selectedButton := 1 |}).
    + exact deleteBox_reachable.
    + vm_compute. reflexivity.
    + discriminate.
Defined.

Lemma C9_Render_witness :
  messagebox.IsActive zeroModel = false /\
  messagebox.Render zeroModel "table" = Ok (zeroModel, "table").
Proof.
  split; [reflexivity|].
  apply (C9_Render_inactive_returns_content zeroModel "table"). reflexivity.
Defined.

(** ** xtable: strings and search *)

Section XtableFind.

Import xtable.

Lemma append_empty_inv (a b : string) :
  (a ++ b)%string = EmptyString -> a = EmptyString /\ b = EmptyString.
Proof. destruct a; cbn; [auto|discriminate]. Qed.

(** [String.prefix] tests for a leading occurrence. *)
Lemma prefix_occurs (t s : string) :
  String.prefix t s = true <-> exists post, s = (t ++ post)%string.
Proof.
  rewrite String.prefix_correct.
  revert s. induction t as [|a t IH]; intros s.
  - cbn. split; [intros _; exists s; reflexivity|].
    intros _. destruct s; reflexivity.
  - destruct s as [|b s]; cbn.
    + split; [discriminate|]. intros [post H]. discriminate.
    + split.
      * intros H. injection H as -> H. apply IH in H.
        destruct H as [post ->]. exists post. reflexivity.
      * intros [post H]. injection H as -> ->. f_equal.
        apply IH. exists post. reflexivity.
Qed.

(** [strings.Contains] holds exactly when the term occurs in the text. *)
Lemma Contains_occursIn (s term : string) :
  GoStrings.Contains s term = true <-> occursIn term s.
Proof.
  unfold GoStrings.Contains, GoStrings.Index.
  assert (H : (exists n, String.index 0 term s = Some n) <-> occursIn term s).
  { induction s as [|c s IH].
    - cbn [String.index]. destruct term as [|a term].
      + split; [intros _; exists EmptyString, EmptyString; reflexivity|].
        intros _. exists O. reflexivity.
      + split; [intros [n H]; discriminate|].
        intros (pre & post & H). symmetry in H.
        apply append_empty_inv in H. destruct H as [_ H]. discriminate.
    - cbn [String.index].
      destruct (String.prefix term (String c s)) eqn:P.
      + split; [|intros _; exists O; reflexivity].
        intros _. apply prefix_occurs in P. destruct P as [post P].
        exists EmptyString, post. exact P.
      + split.
        * intros [n H].
          destruct (String.index 0 term s) as [k|] eqn:E; [|discriminate].
          destruct (proj1 IH (ex_intro _ k eq_refl)) as (pre & post & ->).
          exists (String c pre), post. reflexivity.
        * intros (pre & post & H). destruct pre as [|a pre].
          -- assert (P' : String.prefix term (String c s) = true)
               by (apply prefix_occurs; exists post; exact H).
             congruence.
          -- cbn in H. injection H as -> ->.
             destruct (proj2 IH (ex_intro _ pre (ex_intro _ post eq_refl)))
               as [k ->].
             exists (S k). reflexivity. }
  destruct (String.index 0 term s) as [n|].
  - split; [intros _; apply H; exists n; reflexivity|].
    intros _. apply Z.geb_le. lia.
  - split; [discriminate|]. intros Hocc. apply H in Hocc.
    destruct Hocc as [n Hn]. discriminate.
Qed.

Lemma rowMatches_rowHas (term : string) (r : Row) :
  rowMatches term r = true <-> rowHas term r.
Proof.
  unfold rowMatches, rowHas. rewrite existsb_exists.
  split; intros (c & Hin & Hc); exists c; split; trivial;
    apply Contains_occursIn; exact Hc.
Qed.

Lemma rowMatches_not_rowHas (term : string) (r : Row) :
  rowMatches term r = false <-> ~ rowHas term r.
Proof.
  rewrite <- rowMatches_rowHas. destruct (rowMatches term r); split;
    congruence.
Qed.

(** The scan returns the first position after [fromIndex] whose row
    matches, counted from [i0], or nothing when no such row matches. *)
Lemma findFrom_spec (term : string) (fromIndex : Z) (rs : list Row) :
  forall i0 : Z,
    match findFrom term fromIndex i0 rs with
    | Some i =>
        exists (k : nat) (r : Row),
          i = i0 + Z.of_nat k /\ nth_error rs k = Some r /\
          fromIndex < i /\ rowMatches term r = true /\
          forall (j : nat) (r' : Row),
            (j < k)%nat -> nth_error rs j = Some r' ->
            fromIndex < i0 + Z.of_nat j -> rowMatches term r' = false
    | None =>
        forall (j : nat) (r' : Row),
          nth_error rs j = Some r' ->
          fromIndex < i0 + Z.of_nat j -> rowMatches term r' = false
    end.
Proof.
  induction rs as [|r rs IH]; intros i0; cbn [findFrom].
  - intros j r' H. destruct j; discriminate.
  - destruct (Z.ltb_spec fromIndex i0) as [Hlt|Hge]; cbn [andb].
    + destruct (rowMatches term r) eqn:Hm.
      * exists O, r. split; [lia|]. split; [reflexivity|]. split; [lia|].
        split; [exact Hm|]. intros j r' Hj. lia.
      * specialize (IH (i0 + 1)).
        destruct (findFrom term fromIndex (i0 + 1) rs) as [i|].
        -- destruct IH as (k & r1 & -> & Hk & Hi & Hr1 & Hfirst).
           exists (S k), r1. split; [lia|]. split; [exact Hk|].
           split; [lia|]. split; [exact Hr1|].
           intros [|j] r' Hj Hnth Hfrom; cbn in Hnth.
           ++ injection Hnth as <-. exact Hm.
           ++ apply (Hfirst j r'); [lia|exact Hnth|lia].
        -- intros [|j] r' Hnth Hfrom; cbn in Hnth.
           ++ injection Hnth as <-. exact Hm.
           ++ apply (IH j r'); [exact Hnth|lia].
    + specialize (IH (i0 + 1)).
      destruct (findFrom term fromIndex (i0 + 1) rs) as [i|].
      * destruct IH as (k & r1 & -> & Hk & Hi & Hr1 & Hfirst).
        exists (S k), r1. split; [lia|]. split; [exact Hk|].
        split; [lia|]. split; [exact Hr1|].
        intros [|j] r' Hj Hnth Hfrom; cbn in Hnth.
        -- lia.
        -- apply (Hfirst j r'); [lia|exact Hnth|lia].
      * intros [|j] r' Hnth Hfrom; cbn in Hnth.
        -- lia.
        -- apply (IH j r'); [exact Hnth|lia].
Qed.

(** The scan does not depend on the rows up to [fromIndex]. *)
Lemma findFrom_ext (term : string) (fromIndex : Z) (rs : list Row) :
  forall (rs2 : list Row) (i0 : Z),
    List.length rs2 = List.length rs ->
    (forall j : nat, fromIndex < i0 + Z.of_nat j ->
                     nth_error rs2 j = nth_error rs j) ->
    findFrom term fromIndex i0 rs2 = findFrom term fromIndex i0 rs.
Proof.
  induction rs as [|r rs IH]; intros [|r2 rs2] i0 Hlen Hagree;
    try discriminate; [reflexivity|].
  cbn [findFrom].
  assert (Htail : findFrom term fromIndex (i0 + 1) rs2
                  = findFrom term fromIndex (i0 + 1) rs).
  { apply IH; [cbn in Hlen; lia|].
    intros j Hj. apply (Hagree (S j)). lia. }
  destruct (Z.ltb_spec fromIndex i0) as [Hlt|Hge]; cbn [andb].
  - specialize (Hagree O ltac:(lia)). cbn in Hagree. injection Hagree as ->.
    rewrite Htail. reflexivity.
  - exact Htail.
Qed.

End XtableFind.

(** C6: [Find] looks at the rows after [fromIndex] only, in increasing
    order: when [k] is the first position after [fromIndex] whose row holds
    [term] in a data cell (as an exact, case-sensitive run of bytes), [Find]
    returns true with the cursor on [k]; when no row after [fromIndex] holds
    [term], it returns false and the table is unchanged; and what it returns
    is the same on any table with the same rows after [fromIndex]. *)
Theorem C6_Find_first_match_after_fromIndex
  (m : xtable.Model) (term : string) (fromIndex : Z) :
  (forall (k : nat) (r : xtable.Row),
      fromIndex < Z.of_nat k ->
      nth_error (xtable.rows m) k = Some r ->
      xtable.rowHas term r ->
      (forall (j : nat) (r' : xtable.Row),
          fromIndex < Z.of_nat j -> (j < k)%nat ->
          nth_error (xtable.rows m) j = Some r' -> ~ xtable.rowHas term r') ->
      xtable.Find m term fromIndex = (xtable.set_cursor m (Z.of_nat k), true) /\
      xtable.cursor (fst (xtable.Find m term fromIndex)) = Z.of_nat k /\
      xtable.rows (fst (xtable.Find m term fromIndex)) = xtable.rows m) /\
  ((forall (j : nat) (r' : xtable.Row),
       fromIndex < Z.of_nat j ->
       nth_error (xtable.rows m) j = Some r' -> ~ xtable.rowHas term r') ->
   xtable.Find m term fromIndex = (m, false)) /\
  (forall m2 : xtable.Model,
      List.length (xtable.rows m2) = List.length (xtable.rows m) ->
      (forall j : nat, fromIndex < Z.of_nat j ->
         nth_error (xtable.rows m2) j = nth_error (xtable.rows m) j) ->
      snd (xtable.Find m2 term fromIndex) = snd (xtable.Find m term fromIndex) /\
      (snd (xtable.Find m term fromIndex) = true ->
       xtable.cursor (fst (xtable.Find m2 term fromIndex))
       = xtable.cursor (fst (xtable.Find m term fromIndex)))).
Proof.
  assert (Hext : forall m2 : xtable.Model,
             List.length (xtable.rows m2) = List.length (xtable.rows m) ->
             (forall j : nat, fromIndex < Z.of_nat j ->
                nth_error (xtable.rows m2) j = nth_error (xtable.rows m) j) ->
             xtable.findFrom term fromIndex 0 (xtable.rows m2)
             = xtable.findFrom term fromIndex 0 (xtable.rows m)).
  { intros m2 Hlen Hagree. apply findFrom_ext; [exact Hlen|].
    intros j Hj. apply Hagree. lia. }
  rewrite <- and_assoc. split; [|intros m2 Hlen Hagree; unfold xtable.Find;
    rewrite (Hext m2 Hlen Hagree);
    destruct (xtable.findFrom term fromIndex 0 (xtable.rows m));
    cbn; split; [reflexivity|intros _; reflexivity
                |reflexivity|discriminate]].
  pose proof (findFrom_spec term fromIndex (xtable.rows m) 0) as S.
  unfold xtable.Find.
  destruct (xtable.findFrom term fromIndex 0 (xtable.rows m)) as [i|].
  - destruct S as (k0 & r0 & -> & Hk0 & Hi & Hr0 & Hfirst).
    rewrite Z.add_0_l in *. split.
    + intros k r Hk Hnth Hhas Hnone.
      assert (k0 = k) as ->.
      { destruct (Nat.lt_trichotomy k0 k) as [Hlt|[Heq|Hgt]]; [|exact Heq|].
        - exfalso. apply (Hnone k0 r0 Hi Hlt Hk0).
          apply rowMatches_rowHas. exact Hr0.
        - exfalso. apply rowMatches_rowHas in Hhas.
          rewrite (Hfirst k r Hgt Hnth) in Hhas by lia. discriminate. }
      repeat split.
    + intros Hnone. exfalso. apply (Hnone k0 r0 Hi Hk0).
      apply rowMatches_rowHas. exact Hr0.
  - split.
    + intros k r Hk Hnth Hhas _. exfalso. apply rowMatches_rowHas in Hhas.
      rewrite (S k r Hnth) in Hhas by lia. discriminate.
    + intros _. reflexivity.
Qed.

Lemma C6_Find_witness :
  xtable.Find xtable.biscuits "Yes" 0
  = (xtable.set_cursor xtable.biscuits 2, true).
Proof.
  destruct (C6_Find_first_match_after_fromIndex xtable.biscuits "Yes" 0)
    as (Hfound & _ & _).
  destruct (Hfound 2%nat (xtable.row ["Hobnobs"; "UK"; "Yes"])) as [E _].
  - reflexivity.
  - reflexivity.
  - exists "Yes". split; [cbn; auto|].
    exists EmptyString, EmptyString. reflexivity.
  - intros j r' Hj Hlt Hnth. destruct j as [|[|j]]; try lia.
    cbn in Hnth. injection Hnth as <-. intros Hhas.
    apply rowMatches_rowHas in Hhas. vm_compute in Hhas. discriminate.
  - exact E.
Defined.

(** ** xtable: removal *)

Section XtableRemoval.

Import xtable.

Lemma deleteAt_length (i : nat) (rs : list Row) :
  (i < List.length rs)%nat ->
  List.length (deleteAt i rs) = (List.length rs - 1)%nat.
Proof.
  revert rs. induction i as [|i IH]; intros [|r rs] H; cbn in H; try lia.
  - cbn. lia.
  - change (deleteAt (S i) (r :: rs)) with (r :: deleteAt i rs).
    cbn [List.length]. rewrite IH by lia. lia.
Qed.




Lemma RemoveRowByIndex_inside (m : Model) (i : Z) :
  0 <= i < GoSlice.len (rows m) ->
  RemoveRowByIndex m i
  = (clampCursor (set_rows m (deleteAt (Z.to_nat i) (rows m))), true).
Proof.
  intros H. unfold RemoveRowByIndex.
  destruct (Z.leb_spec 0 i); destruct (Z.ltb_spec i (GoSlice.len (rows m)));
    cbn [andb]; try reflexivity; lia.
Qed.

Lemma len_positive (rs : list Row) : rs <> [] <-> 0 < GoSlice.len rs.
Proof.
  unfold GoSlice.len. destruct rs; cbn [List.length]; split; intros H;
    try congruence; try lia; try discriminate.
Qed.

Lemma clampCursor_rows (m : Model) : rows (clampCursor m) = rows m.
Proof. unfold clampCursor. destruct (0 <? GoSlice.len (rows m)); reflexivity. Qed.

Lemma clampCursor_index (m : Model) : index (clampCursor m) = index m.
Proof. unfold clampCursor. destruct (0 <? GoSlice.len (rows m)); reflexivity. Qed.

Lemma clampCursor_cursor (m : Model) :
  0 < GoSlice.len (rows m) ->
  cursor (clampCursor m) = Z.min (cursor m) (GoSlice.len (rows m) - 1).
Proof.
  intros H. unfold clampCursor.
  destruct (Z.ltb_spec 0 (GoSlice.len (rows m))); [|lia].
  cbn [set_cursor cursor]. unfold GoInt.min.
  destruct (Z.ltb_spec (cursor m) (GoSlice.len (rows m) - 1)); lia.
Qed.

(** A removal by index leaves the cursor on a row and the hash index in
    step with the rows, if they were. *)
Lemma RemoveRowByIndex_keeps_cursor_and_index (m : Model) (i : Z) :
  cursorOnRow m -> indexInStep m ->
  cursorOnRow (fst (RemoveRowByIndex m i)) /\
  indexInStep (fst (RemoveRowByIndex m i)).
Proof.
  intros Hcur Hix. unfold RemoveRowByIndex.
  destruct ((0 <=? i) && (i <? GoSlice.len (rows m))) eqn:Hin; cbn [fst];
    [|split; assumption].
  apply andb_prop in Hin. destruct Hin as [H0 H1].
  apply Z.leb_le in H0. apply Z.ltb_lt in H1.
  assert (Hne : rows m <> []) by (apply len_positive; lia).
  specialize (Hcur Hne).
  split.
  - unfold cursorOnRow. rewrite clampCursor_rows. intros Hne'.
    apply len_positive in Hne'.
    rewrite clampCursor_cursor by exact Hne'.
    cbn [set_rows rows cursor] in *. lia.
  - unfold indexInStep. rewrite clampCursor_rows, clampCursor_index.
    reflexivity.
Qed.

(** So does a removal by hash, which changes nothing for a hash that no
    row is registered for. *)
Lemma RemoveRowByHash_keeps_cursor_and_index (m : Model) (h : Z) :
  cursorOnRow m -> indexInStep m ->
  cursorOnRow (fst (RemoveRowByHash m h)) /\
  indexInStep (fst (RemoveRowByHash m h)) /\
  (GetRowByHash m h = -1 -> RemoveRowByHash m h = (m, false)).
Proof.
  intros Hcur Hix. unfold RemoveRowByHash.
  destruct (Z.eqb_spec (GetRowByHash m h) (-1)) as [E|E].
  - cbn [fst]. split; [exact Hcur|]. split; [exact Hix|]. intros _.
    reflexivity.
  - destruct (RemoveRowByIndex_keeps_cursor_and_index m (GetRowByHash m h)
                Hcur Hix) as [H1 H2].
    split; [exact H1|]. split; [exact H2|]. intros E'. contradiction.
Qed.

End XtableRemoval.




(** C7: on a table with rows and the cursor on one of them,
    [RemoveSelectedRow] removes the row at the cursor; when rows remain it
    returns true and the cursor is the smaller of the previous cursor and
    the new row count minus one; when none remain it returns false. *)
Theorem C7_RemoveSelectedRow_clamps_cursor (m : xtable.Model) :
  xtable.rows m <> [] -> xtable.cursorOnRow m ->
  xtable.rows (fst (xtable.RemoveSelectedRow m))
  = xtable.deleteAt (Z.to_nat (xtable.cursor m)) (xtable.rows m) /\
  GoSlice.len (xtable.rows (fst (xtable.RemoveSelectedRow m)))
  = GoSlice.len (xtable.rows m) - 1 /\
  (xtable.rows (fst (xtable.RemoveSelectedRow m)) <> [] ->
   snd (xtable.RemoveSelectedRow m) = true /\
   xtable.cursor (fst (xtable.RemoveSelectedRow m))
   = Z.min (xtable.cursor m)
       (GoSlice.len (xtable.rows (fst (xtable.RemoveSelectedRow m))) - 1)) /\
  (xtable.rows (fst (xtable.RemoveSelectedRow m)) = [] ->
   snd (xtable.RemoveSelectedRow m) = false).
Proof.
  intros Hne Hcur. specialize (Hcur Hne).
  unfold xtable.RemoveSelectedRow.
  rewrite RemoveRowByIndex_inside by exact Hcur. cbn [fst].
  set (rs' := xtable.deleteAt (Z.to_nat (xtable.cursor m)) (xtable.rows m)).
  set (m1 := xtable.clampCursor (xtable.set_rows m rs')).
  assert (Hrows : xtable.rows m1 = rs')
    by (unfold m1; rewrite clampCursor_rows; reflexivity).
  assert (Hlen : GoSlice.len rs' = GoSlice.len (xtable.rows m) - 1).
  { unfold rs', GoSlice.len in *. rewrite deleteAt_length by lia. lia. }
  rewrite Hrows.
  destruct (Z.ltb_spec 0 (GoSlice.len rs')) as [Hpos|Hzero];
    cbn [fst snd xtable.set_cursor xtable.rows xtable.cursor]; rewrite ?Hrows.
  - split; [reflexivity|]. split; [exact Hlen|]. split.
    + intros _. split; [reflexivity|].
      assert (Hc : xtable.cursor m1
                   = Z.min (xtable.cursor m) (GoSlice.len rs' - 1)).
      { unfold m1. rewrite clampCursor_cursor
          by (cbn [xtable.set_rows xtable.rows]; exact Hpos).
        reflexivity. }
      rewrite Hc. unfold GoInt.min.
      destruct (Z.ltb_spec (Z.min (xtable.cursor m) (GoSlice.len rs' - 1))
                  (GoSlice.len rs' - 1)); lia.
    + intros E. rewrite E in Hpos. cbn in Hpos. lia.
  - split; [reflexivity|]. split; [exact Hlen|]. split.
    + intros Hne'. apply len_positive in Hne'. lia.
    + intros _. reflexivity.
Qed.

Lemma C7_RemoveSelectedRow_witness :
  (xtable.rows (xtable.set_cursor xtable.packets 3) <> [] /\
   xtable.cursorOnRow (xtable.set_cursor xtable.packets 3)) /\
  snd (xtable.RemoveSelectedRow (xtable.set_cursor xtable.packets 3)) = true /\
  xtable.cursor (fst (xtable.RemoveSelectedRow (xtable.set_cursor xtable.packets 3)))
  = 2.
Proof.
  assert (Hne : xtable.rows (xtable.set_cursor xtable.packets 3) <> [])
    by discriminate.
  assert (Hcur : xtable.cursorOnRow (xtable.set_cursor xtable.packets 3))
    by (intros _; vm_compute; split; [discriminate|reflexivity]).
  split; [split; [exact Hne|exact Hcur]|].
  destruct (C7_RemoveSelectedRow_clamps_cursor
              (xtable.set_cursor xtable.packets 3) Hne Hcur)
    as (_ & _ & Hremain & _).
  destruct Hremain as [Hret Hc]; [discriminate|].
  split; [exact Hret|]. rewrite Hc. reflexivity.
Defined.

(** ** xtable: the row-number column *)

Section XtableDigits.

Import xtable.

Lemma digits_fuel_spec (fuel : nat) :
  forall n : Z,
    1 <= n < 2 ^ (Z.of_nat fuel + 1) ->
    1 <= digits_fuel fuel n /\
    10 ^ (digits_fuel fuel n - 1) <= n < 10 ^ digits_fuel fuel n.
Proof.
  induction fuel as [|f IH]; intros n Hn; cbn [digits_fuel].
  - change (2 ^ (Z.of_nat 0 + 1)) with 2 in Hn.
    assert (n = 1) as -> by lia. cbn. lia.
  - destruct (Z.ltb_spec n 10) as [Hsmall|Hbig].
    + change (10 ^ (1 - 1)) with 1. change (10 ^ 1) with 10. lia.
    + assert (Hq : 1 <= n / 10 < 2 ^ (Z.of_nat f + 1)).
      { replace (Z.of_nat (S f) + 1) with (Z.succ (Z.of_nat f + 1)) in Hn
          by lia.
        rewrite Z.pow_succ_r in Hn by lia.
        split.
        - apply Z.div_le_lower_bound; lia.
        - apply Z.div_lt_upper_bound; lia. }
      destruct (IH _ Hq) as (Hd & Hlo & Hhi).
      set (d := digits_fuel f (n / 10)) in *.
      replace (1 + d - 1) with (Z.succ (d - 1)) by lia.
      replace (1 + d) with (Z.succ d) by lia.
      rewrite !Z.pow_succ_r by lia.
      pose proof (Z.div_mod n 10 ltac:(lia)) as Hdm.
      pose proof (Z.mod_pos_bound n 10 ltac:(lia)) as Hmod.
      lia.
Qed.

(** [decimalDigits n] is the [d] with [10^(d-1) <= n < 10^d]. *)
Lemma decimalDigits_spec (n : Z) :
  1 <= n ->
  1 <= decimalDigits n /\
  10 ^ (decimalDigits n - 1) <= n < 10 ^ decimalDigits n.
Proof.
  intros Hn. unfold decimalDigits. apply digits_fuel_spec.
  pose proof (Z.log2_spec n ltac:(lia)) as Hlog.
  pose proof (Z.log2_nonneg n) as Hnn.
  rewrite Z2Nat.id by exact Hnn.
  replace (Z.log2 n + 1) with (Z.succ (Z.log2 n)) by lia. lia.
Qed.

Lemma digits_unique (n d d' : Z) :
  1 <= d -> 1 <= d' ->
  10 ^ (d - 1) <= n < 10 ^ d -> 10 ^ (d' - 1) <= n < 10 ^ d' -> d = d'.
Proof.
  intros Hd Hd' H H'.
  destruct (Z.lt_trichotomy d d') as [Hlt|[Heq|Hgt]]; [|exact Heq|]; exfalso.
  - assert (10 ^ d <= 10 ^ (d' - 1)) by (apply Z.pow_le_mono_r; lia). lia.
  - assert (10 ^ d' <= 10 ^ (d - 1)) by (apply Z.pow_le_mono_r; lia). lia.
Qed.

Lemma decimalDigits_eq (n d : Z) :
  1 <= d -> 10 ^ (d - 1) <= n < 10 ^ d -> decimalDigits n = d.
Proof.
  intros Hd H.
  assert (Hn : 1 <= n).
  { pose proof (Z.pow_pos_nonneg 10 (d - 1) ltac:(lia) ltac:(lia)). lia. }
  destruct (decimalDigits_spec n Hn) as (H1 & H2).
  apply (digits_unique n); assumption.
Qed.

End XtableDigits.

(** C3, as amended: for a table with at least one row the width of the
    row-number column is the number of decimal digits of the row count (not
    of the row count minus one), that is the [w] with
    [10^(w-1) <= count < 10^w]: 1 for 1 to 9 rows, 2 for 10 to 99, 3 for 100
    to 999, and one more at every power of ten of the row count. *)
Theorem C3_rowNumberColWidth_is_digits_of_row_count (rs : list xtable.Row) :
  1 <= GoSlice.len rs ->
  (1 <= xtable.rowNumberColWidth rs /\
   10 ^ (xtable.rowNumberColWidth rs - 1) <= GoSlice.len rs
     < 10 ^ xtable.rowNumberColWidth rs) /\
  (GoSlice.len rs <= 9 -> xtable.rowNumberColWidth rs = 1) /\
  (10 <= GoSlice.len rs <= 99 -> xtable.rowNumberColWidth rs = 2) /\
  (100 <= GoSlice.len rs <= 999 -> xtable.rowNumberColWidth rs = 3) /\
  (forall (rs' : list xtable.Row) (k : Z),
      1 <= k -> GoSlice.len rs = 10 ^ k - 1 -> GoSlice.len rs' = 10 ^ k ->
      xtable.rowNumberColWidth rs' = xtable.rowNumberColWidth rs + 1).
Proof.
  intros Hn. unfold xtable.rowNumberColWidth.
  split; [apply decimalDigits_spec; exact Hn|].
  split; [|split; [|split]].
  - intros H. apply decimalDigits_eq; [lia|].
    change (10 ^ (1 - 1)) with 1. change (10 ^ 1) with 10. lia.
  - intros H. apply decimalDigits_eq; [lia|].
    change (10 ^ (2 - 1)) with 10. change (10 ^ 2) with 100. lia.
  - intros H. apply decimalDigits_eq; [lia|].
    change (10 ^ (3 - 1)) with 100. change (10 ^ 3) with 1000. lia.
  - intros rs' k Hk E E'. rewrite E, E'.
    assert (Hpow : 10 ^ k = 10 * 10 ^ (k - 1)).
    { replace k with (Z.succ (k - 1)) at 1 by lia.
      apply Z.pow_succ_r. lia. }
    pose proof (Z.pow_pos_nonneg 10 (k - 1) ltac:(lia) ltac:(lia)) as Hpos.
    rewrite (decimalDigits_eq (10 ^ k - 1) k) by lia.
    apply decimalDigits_eq; [lia|].
    replace (k + 1 - 1) with k by lia.
    replace (k + 1) with (Z.succ k) by lia.
    rewrite Z.pow_succ_r by lia. lia.
Qed.

Lemma C3_rowNumberColWidth_witness :
  1 <= GoSlice.len (repeat (xtable.row []) 34) /\
  xtable.rowNumberColWidth (repeat (xtable.row []) 34) = 2.
Proof.
  assert (H : 1 <= GoSlice.len (repeat (xtable.row []) 34))
    by (vm_compute; discriminate).
  split; [exact H|].
  destruct (C3_rowNumberColWidth_is_digits_of_row_count
              (repeat (xtable.row []) 34) H) as (_ & _ & H2 & _).
  apply H2. vm_compute. split; discriminate.
Defined.

(** C3, as stated, fails at the 100 rows of TestPad: the column is 3 cells
    wide, the decimal digits of 100 - 1 are 2. *)
Lemma C3_digits_of_count_minus_one_fails_at_100_rows :
  ~ (forall rs : list xtable.Row,
        1 <= GoSlice.len rs ->
        xtable.rowNumberColWidth rs
        = xtable.rowNumberColWidth_formula (GoSlice.len rs) /\
        (GoSlice.len rs <= 9 -> xtable.rowNumberColWidth rs = 1) /\
        (10 <= GoSlice.len rs <= 99 -> xtable.rowNumberColWidth rs = 2) /\
        (100 <= GoSlice.len rs <= 999 -> xtable.rowNumberColWidth rs = 3)).
Proof.
  intros H.
  destruct (H (repeat (xtable.row []) 100)) as [E _].
  - vm_compute. discriminate.
  - vm_compute in E. discriminate.
Qed.

(** ** xtable: sorting *)

Lemma insertStable_perm (less : xtable.Row -> xtable.Row -> bool)
  (x : xtable.Row) (l : list xtable.Row) :
  Permutation (xtable.insertStable less x l) (x :: l).
Proof.
  induction l as [|y l IH]; cbn [xtable.insertStable]; [reflexivity|].
  destruct (less y x); [|reflexivity].
  rewrite IH. apply perm_swap.
Qed.

Lemma sortStable_perm (less : xtable.Row -> xtable.Row -> bool)
  (l : list xtable.Row) : Permutation (xtable.sortStable less l) l.
Proof.
  unfold xtable.sortStable.
  induction l as [|x l IH]; cbn [fold_right]; [reflexivity|].
  rewrite insertStable_perm. constructor. exact IH.
Qed.

(** Sorting keeps the rows, whatever the column, direction and hint. *)
Lemma SortBy_permutes_rows (m : xtable.Model) (col : Z)
  (direction : xtable.SortOrder) (hint : xtable.SortHint) :
  Permutation (xtable.rows (xtable.SortBy m col direction hint))
    (xtable.rows m).
Proof.
  unfold xtable.SortBy. cbn [xtable.set_rows xtable.rows].
  apply sortStable_perm.
Qed.

(** C5: on the table of TestSortBy, sorting by column 0 ascending as
    strings, by column 1 ascending as numbers and by column 2 descending as
    numbers gives the row orders the test expects. *)
Theorem C5_SortBy_orders_the_test_table :
  xtable.rows (xtable.SortBy xtable.sortTable 0 xtable.SortAscending
                 xtable.SortString)
  = [ xtable.row ["abcdEfgh"; "42"; "0.72"];
      xtable.row ["plmnPOiu"; "4543534"; "-23456.3"];
      xtable.row ["qwerTYui"; "123"; "4.35"];
      xtable.row ["zxcvBNmj"; "-4"; "34.3"] ] /\
  xtable.rows (xtable.SortBy xtable.sortTable 1 xtable.SortAscending
                 xtable.SortNumeric)
  = [ xtable.row ["zxcvBNmj"; "-4"; "34.3"];
      xtable.row ["abcdEfgh"; "42"; "0.72"];
      xtable.row ["qwerTYui"; "123"; "4.35"];
      xtable.row ["plmnPOiu"; "4543534"; "-23456.3"] ] /\
  xtable.rows (xtable.SortBy xtable.sortTable 2 xtable.SortDescending
                 xtable.SortNumeric)
  = [ xtable.row ["zxcvBNmj"; "-4"; "34.3"];
      xtable.row ["qwerTYui"; "123"; "4.35"];
      xtable.row ["abcdEfgh"; "42"; "0.72"];
      xtable.row ["plmnPOiu"; "4543534"; "-23456.3"] ].
Proof. repeat split; vm_compute; reflexivity. Qed.

(** ** The tests of xtable_test.go, run on the model *)

Section XtableTests.

Import xtable.

(** TestSortBy sorts one table six times in a row. *)
Example TestSortBy :
  let t1 := SortBy sortTable 0 SortAscending SortString in
  let t2 := SortBy t1 0 SortDescending SortString in
  let t3 := SortBy t2 1 SortAscending SortNumeric in
  let t4 := SortBy t3 1 SortDescending SortNumeric in
  let t5 := SortBy t4 2 SortAscending SortNumeric in
  let t6 := SortBy t5 2 SortDescending SortNumeric in
  map firstCells [t1; t2; t3; t4; t5; t6]
  = [ ["abcdEfgh"; "plmnPOiu"; "qwerTYui"; "zxcvBNmj"];
      ["zxcvBNmj"; "qwerTYui"; "plmnPOiu"; "abcdEfgh"];
      ["zxcvBNmj"; "abcdEfgh"; "qwerTYui"; "plmnPOiu"];
      ["plmnPOiu"; "qwerTYui"; "abcdEfgh"; "zxcvBNmj"];
      ["plmnPOiu"; "abcdEfgh"; "qwerTYui"; "zxcvBNmj"];
      ["zxcvBNmj"; "qwerTYui"; "abcdEfgh"; "plmnPOiu"] ].
Proof. vm_compute. reflexivity. Qed.

(** TestFind: "Yes" from 0 is found on row 2, then from 2 on row 3. *)
Example TestFind :
  let r1 := Find biscuits "Yes" 0 in
  let r2 := Find (fst r1) "Yes" (cursor (fst r1)) in
  (snd r1, cursor (fst r1), snd r2, cursor (fst r2)) = (true, 2, true, 3).
Proof. vm_compute. reflexivity. Qed.

(** Past the last match nothing is found and the table stays. *)
Example Find_past_last_match :
  Find (set_cursor biscuits 3) "Yes" 3 = (set_cursor biscuits 3, false).
Proof. vm_compute. reflexivity. Qed.

(** The search is case-sensitive. *)
Example Find_case_sensitive : snd (Find biscuits "yes" (-1)) = false.
Proof. vm_compute. reflexivity. Qed.

(** TestPad: the marker padded to the width for 8, 34 and 100 rows. *)
Example TestPad :
  map (fun n => pad (rowNumberColWidth (repeat (row []) n)) "#")
    [8; 34; 100]%nat
  = ["#"; " #"; "  #"].
Proof. vm_compute. reflexivity. Qed.

(** The formula of the spec gives width 2 for the 100 rows of TestPad,
    whose marker the test expects padded to 3 cells. *)
Example TestPad_formula : pad (rowNumberColWidth_formula 100) "#" = " #".
Proof. vm_compute. reflexivity. Qed.

(** TestGetRowByHash. *)
Example TestGetRowByHash :
  map (GetRowByHash packets)
    [0x40099b03ee546818; 0x73c93c25d05d3b20; 0x328fbeb31d4437e0;
     0xca7bd7aa9e6497d4; 0]
  = [0; 1; 2; 3; -1].
Proof. vm_compute. reflexivity. Qed.

(** TestRemoveRowsByIndex: index 10 returns true and removes nothing,
    index 0 returns true and leaves three rows, "Tim Tams" first. *)
Example TestRemoveRowsByIndex :
  let r1 := RemoveRowByIndex packets 10 in
  let r2 := RemoveRowByIndex (fst r1) 0 in
  (snd r1, GoSlice.len (rows (fst r1)), snd r2, firstCells (fst r2))
  = (true, 4, true, ["Tim Tams"; "Hobnobs"; "Peanut Butter Cookie"]).
Proof. vm_compute. reflexivity. Qed.

(** The value the spec gives to removeByIndex is false for index 10,
    where the test requires true. *)
Example TestRemoveRowsByIndex_didRemove : didRemove packets 10 = false.
Proof. vm_compute. reflexivity. Qed.

(** TestRemoveSelectedRow: with the cursor on the last of four rows. *)
Example TestRemoveSelectedRow :
  let r := RemoveSelectedRow (set_cursor packets 3) in
  (snd r, GoSlice.len (rows (fst r)), cursor (fst r)) = (true, 3, 2).
Proof. vm_compute. reflexivity. Qed.

(** TestRemoveRowByHash: the hash of the first row; the index is
    repaired for the rows that moved. *)
Example TestRemoveRowByHash :
  let r := RemoveRowByHash (set_cursor packets 3) 0x40099b03ee546818 in
  (snd r, firstCells (fst r), GetRowByHash (fst r) 0x73c93c25d05d3b20,
   GetRowByHash (fst r) 0x40099b03ee546818)
  = (true, ["Tim Tams"; "Hobnobs"; "Peanut Butter Cookie"], 0, -1).
Proof. vm_compute. reflexivity. Qed.

(** Removing the last row reports that none remain. *)
Example RemoveSelectedRow_last_row :
  let one := New [] [row ["only"]] 5 in
  (snd (RemoveSelectedRow one), rows (fst (RemoveSelectedRow one)))
  = (false, []).
Proof. vm_compute. reflexivity. Qed.

End XtableTests.

(** ** messagebox: keys bound to buttons *)

Section MessageBoxKeys.

Import messagebox.
Context {T : TermLib}.

(** A value that is none of the five buttons has no text: looking up its
    hotkey, building its key binding and rendering it all panic. *)
Theorem unknown_button_has_no_text (b : Button) (style : Styles)
  (selected : bool) :
  ~ In b displayOrder ->
  highlightChar b = Panic IndexOutOfRange /\
  keyBinding b = Panic IndexOutOfRange /\
  Button_render b style selected = Panic IndexOutOfRange.
Proof.
  intros Hnot.
  assert (Htext : buttonText b = "").
  { unfold buttonText.
    destruct (Z.eqb_spec b MB_OK) as [->|_];
      [exfalso; apply Hnot; cbn; tauto|].
    destruct (Z.eqb_spec b MB_CANCEL) as [->|_];
      [exfalso; apply Hnot; cbn; tauto|].
    destruct (Z.eqb_spec b MB_YES) as [->|_];
      [exfalso; apply Hnot; cbn; tauto|].
    destruct (Z.eqb_spec b MB_NO) as [->|_];
      [exfalso; apply Hnot; cbn; tauto|].
    destruct (Z.eqb_spec b MB_ALL) as [->|_];
      [exfalso; apply Hnot; cbn; tauto|].
    reflexivity. }
  unfold keyBinding, highlightChar, Button_render. rewrite Htext.
  repeat split.
Qed.

(** The binding of a button holds its own hotkey. *)
Lemma keyBinding_own_hotkey (btn : Button) (h : string) :
  highlightChar btn = Ok h ->
  exists keys, keyBinding btn = Ok keys /\
               existsb (String.eqb (GoStrings.ToLower h)) keys = true.
Proof.
  intros Hh. unfold keyBinding. rewrite Hh. cbn [bind].
  eexists. split; [reflexivity|].
  destruct (negb _); cbn [existsb app]; rewrite String.eqb_refl; reflexivity.
Qed.

(** The binding of a button holds the hotkey of no other button. *)
Lemma keyBinding_other_hotkey (x btn : Button) (h : string)
  (keys : list string) :
  In x displayOrder -> In btn displayOrder -> x <> btn ->
  highlightChar btn = Ok h -> keyBinding x = Ok keys ->
  existsb (String.eqb (GoStrings.ToLower h)) keys = false.
Proof.
  unfold displayOrder. cbn [In].
  intros [<-|[<-|[<-|[<-|[<-|[]]]]]] [<-|[<-|[<-|[<-|[<-|[]]]]]] Hne Hh Hk;
    try (exfalso; apply Hne; reflexivity);
    vm_compute in Hh; injection Hh as <-;
    vm_compute in Hk; injection Hk as <-;
    vm_compute; reflexivity.
Qed.

Lemma key_Matches_existsb (k : KeyMsg) (keys : list string) :
  key_Matches k keys = existsb (String.eqb (String__ k)) keys.
Proof. reflexivity. Qed.

Lemma matchBoundKey_hotkey (k : KeyMsg) (btn : Button) (h : string)
  (bs : list Button) :
  incl bs displayOrder -> In btn bs ->
  highlightChar btn = Ok h -> String__ k = GoStrings.ToLower h ->
  matchBoundKey k bs = Ok (Some btn).
Proof.
  intros Hincl Hin Hh Hs.
  induction bs as [|x bs IH]; [contradiction|].
  cbn [matchBoundKey].
  assert (Hx : In x displayOrder) by (apply Hincl; left; reflexivity).
  assert (Hbtn : In btn displayOrder) by (apply Hincl; exact Hin).
  destruct (Z.eq_dec x btn) as [->|Hne].
  - destruct (keyBinding_own_hotkey btn h Hh) as (keys & -> & Hm).
    cbn [bind]. rewrite key_Matches_existsb, Hs, Hm. reflexivity.
  - pose proof (keyBinding_known x Hx) as Hok.
    destruct (keyBinding x) as [keys|p] eqn:Ek; [|discriminate].
    cbn [bind]. rewrite key_Matches_existsb, Hs.
    rewrite (keyBinding_other_hotkey x btn h keys Hx Hbtn Hne Hh Ek).
    apply IH.
    + intros y Hy. apply Hincl. right. exact Hy.
    + destruct Hin as [E|Hin]; [contradiction|exact Hin].
Qed.

(** On every active box a host can hold, a key of no special type whose
    text is the lower-case hotkey of one of the box's buttons dismisses the
    box and emits that button. *)
Theorem hotkey_dismisses_with_its_button (m : Model) (b : box)
  (btn : Button) (h : string) (k : KeyMsg) (code : Z) :
  reachable m -> box_ m = Some b -> In btn (buttons b) ->
  highlightChar btn = Ok h ->
  Type__ k = KeyOther code -> String__ k = GoStrings.ToLower h ->
  Update m (MsgKey k) = Ok (set_box m None, Some (MsgButton btn)).
Proof.
  intros Hr Hb Hin Hh Ht Hs.
  destruct (reachable_box_ok m Hr b Hb) as (Hincl & _).
  unfold Update. rewrite Hb, Ht.
  rewrite (matchBoundKey_hotkey k btn h (buttons b) Hincl Hin Hh Hs).
  reflexivity.
Qed.

Lemma matchBoundKey_unbound (k : KeyMsg) (bs : list Button) :
  incl bs displayOrder ->
  (forall btn keys, In btn bs -> keyBinding btn = Ok keys ->
                    ~ In (String__ k) keys) ->
  matchBoundKey k bs = Ok None.
Proof.
  intros Hincl Hfree.
  induction bs as [|x bs IH]; [reflexivity|].
  cbn [matchBoundKey].
  pose proof (keyBinding_known x (Hincl x (or_introl eq_refl))) as Hok.
  destruct (keyBinding x) as [keys|p] eqn:Ek; [|discriminate].
  cbn [bind].
  destruct (key_Matches k keys) eqn:Em.
  - exfalso. unfold key_Matches in Em. apply existsb_exists in Em.
    destruct Em as (key & Hkey & E). apply String.eqb_eq in E. subst key.
    exact (Hfree x keys (or_introl eq_refl) Ek Hkey).
  - apply IH.
    + intros y Hy. apply Hincl. right. exact Hy.
    + intros btn keys' Hin. apply Hfree. right. exact Hin.
Qed.

(** On every active box a host can hold, a key of no special type whose
    text is in the binding of none of the box's buttons changes nothing and
    emits nothing. *)
Theorem unbound_key_is_ignored (m : Model) (b : box) (k : KeyMsg) (code : Z) :
  reachable m -> box_ m = Some b -> Type__ k = KeyOther code ->
  (forall btn keys, In btn (buttons b) -> keyBinding btn = Ok keys ->
                    ~ In (String__ k) keys) ->
  Update m (MsgKey k) = Ok (m, None).
Proof.
  intros Hr Hb Ht Hfree.
  destruct (reachable_box_ok m Hr b Hb) as (Hincl & _).
  unfold Update. rewrite Hb, Ht.
  rewrite (matchBoundKey_unbound k (buttons b) Hincl Hfree). reflexivity.
Qed.

End MessageBoxKeys.

Lemma unknown_button_witness :
  ~ In messagebox.OK_CANCEL messagebox.displayOrder /\
  messagebox.keyBinding messagebox.OK_CANCEL = Panic IndexOutOfRange.
Proof.
  assert (H : ~ In messagebox.OK_CANCEL messagebox.displayOrder).
  { cbn. intros [H|[H|[H|[H|[H|[]]]]]]; discriminate H. }
  split; [exact H|].
  exact (proj1 (proj2 (unknown_button_has_no_text (T := PlainTerm)
                         messagebox.OK_CANCEL messagebox.DefaultStyles
                         false H))).
Defined.

Lemma hotkey_witness :
  messagebox.Update deleteBox (keyOf (messagebox.KeyOther 0) "y")
  = Ok (messagebox.set_box deleteBox None,
        Some (messagebox.MsgButton messagebox.MB_YES)).
Proof.
  apply (hotkey_dismisses_with_its_button deleteBox
           {| messagebox.message := "Delete selected?";
              messagebox.buttons :=
                [messagebox.MB_YES; messagebox.MB_NO; messagebox.MB_ALL];
              messagebox.selectedButton := 1 |}
           messagebox.MB_YES "Y"
           {| messagebox.Type__ := messagebox.KeyOther 0;
              messagebox.String__ := "y" |} 0).
  - exact deleteBox_reachable.
  - vm_compute. reflexivity.
  - left. reflexivity.
  - vm_compute. reflexivity.
  - reflexivity.
  - reflexivity.
Defined.

Lemma unbound_key_witness :
  messagebox.Update deleteBox (keyOf (messagebox.KeyOther 0) "o")
  = Ok (deleteBox, None).
Proof.
  apply (unbound_key_is_ignored deleteBox
           {| messagebox.message := "Delete selected?";
              messagebox.buttons :=
                [messagebox.MB_YES; messagebox.MB_NO; messagebox.MB_ALL];
              messagebox.selectedButton := 1 |}
           {| messagebox.Type__ := messagebox.KeyOther 0;
              messagebox.String__ := "o" |} 0).
  - exact deleteBox_reachable.
  - vm_compute. reflexivity.
  - reflexivity.
  - intros btn keys [<-|[<-|[<-|[]]]] Hk; vm_compute in Hk;
      injection Hk as <-; cbn; intros H;
      repeat (destruct H as [H|H]; [discriminate H|]); exact H.
Defined.

(** ** messagebox: moving the selection *)

Section MessageBoxCycle.

Import messagebox.
Context {T : TermLib}.

Lemma rem_forward (s n : Z) :
  0 <= s < n -> n <= 5 ->
  GoInt.rem (GoInt.add s 1) n = Ok ((s + 1) mod n).
Proof.
  intros Hs Hn. unfold GoInt.rem, GoInt.add.
  rewrite wrap_small by lia.
  destruct (Z.eqb_spec n 0); [lia|].
  rewrite Z.rem_mod_nonneg by lia. reflexivity.
Qed.

Lemma rem_backward (s n : Z) :
  0 <= s < n -> n <= 5 ->
  GoInt.rem (GoInt.sub (GoInt.add n s) 1) n = Ok ((s + n - 1) mod n).
Proof.
  intros Hs Hn. unfold GoInt.rem, GoInt.add, GoInt.sub.
  rewrite (wrap_small (n + s)) by lia. rewrite wrap_small by lia.
  destruct (Z.eqb_spec n 0); [lia|].
  rewrite Z.rem_mod_nonneg by lia. f_equal. f_equal. lia.
Qed.

Lemma forward_backward (s n : Z) :
  0 <= s < n -> (((s + 1) mod n) + n - 1) mod n = s.
Proof.
  intros Hs. destruct (Z.eq_dec (s + 1) n) as [E|E].
  - rewrite E, Z.mod_same by lia. rewrite Z.mod_small by lia. lia.
  - rewrite (Z.mod_small (s + 1)) by lia.
    replace (s + 1 + n - 1) with (s + 1 * n) by lia.
    rewrite Z_mod_plus_full. apply Z.mod_small. lia.
Qed.

Lemma backward_forward (s n : Z) :
  0 <= s < n -> (((s + n - 1) mod n) + 1) mod n = s.
Proof.
  intros Hs. destruct (Z.eq_dec s 0) as [->|E].
  - rewrite (Z.mod_small (0 + n - 1)) by lia.
    replace (0 + n - 1 + 1) with n by lia. apply Z.mod_same. lia.
  - replace (s + n - 1) with (s - 1 + 1 * n) by lia.
    rewrite Z_mod_plus_full. rewrite (Z.mod_small (s - 1)) by lia.
    replace (s - 1 + 1) with s by lia. apply Z.mod_small. lia.
Qed.

(** Putting a box back with the selection it had gives the model back. *)
Lemma set_box_same (m : Model) (b : box) (x : option box) (s : Z) :
  box_ m = Some b ->
  set_box (set_box m x)
    (Some (set_selectedButton (set_selectedButton b s) (selectedButton b)))
  = m.
Proof.
  destruct m as [vp bx xp yp w st], b as [msg bs sel]. cbn. intros ->.
  reflexivity.
Qed.

Lemma set_box_id (m : Model) (b : box) :
  box_ m = Some b ->
  set_box m (Some (set_selectedButton b (selectedButton b))) = m.
Proof.
  destruct m as [vp bx xp yp w st], b as [msg bs sel]. cbn. intros ->.
  reflexivity.
Qed.

Lemma Update_forward (m : Model) (b : box) (k : KeyMsg) :
  box_ m = Some b -> box_ok b -> buttons b <> [] ->
  Type__ k = KeyCtrlI \/ Type__ k = KeyRight ->
  Update m (MsgKey k)
  = Ok (set_box m
          (Some (set_selectedButton b
                   ((selectedButton b + 1) mod GoSlice.len (buttons b)))),
        None).
Proof.
  intros Hb Hok Hne Hk.
  pose proof (box_ok_nonempty b Hok Hne) as Hsel.
  destruct Hok as (_ & Hlen & _).
  unfold Update. rewrite Hb.
  destruct Hk as [-> | ->]; rewrite rem_forward by assumption; reflexivity.
Qed.

Lemma Update_backward (m : Model) (b : box) (k : KeyMsg) :
  box_ m = Some b -> box_ok b -> buttons b <> [] ->
  Type__ k = KeyShiftTab \/ Type__ k = KeyLeft ->
  Update m (MsgKey k)
  = Ok (set_box m
          (Some (set_selectedButton b
                   ((selectedButton b + GoSlice.len (buttons b) - 1)
                      mod GoSlice.len (buttons b)))),
        None).
Proof.
  intros Hb Hok Hne Hk.
  pose proof (box_ok_nonempty b Hok Hne) as Hsel.
  destruct Hok as (_ & Hlen & _).
  unfold Update. rewrite Hb.
  destruct Hk as [-> | ->]; rewrite rem_backward by assumption; reflexivity.
Qed.

(** On every box with buttons a host can hold, a forward key (tab, right)
    followed by a backward key (shift-tab, left) gives the model back as it
    was, and so does a backward key followed by a forward key. *)
Theorem forward_and_backward_keys_undo_each_other (m : Model) (b : box)
  (kf kb : KeyMsg) :
  reachable m -> box_ m = Some b -> buttons b <> [] ->
  Type__ kf = KeyCtrlI \/ Type__ kf = KeyRight ->
  Type__ kb = KeyShiftTab \/ Type__ kb = KeyLeft ->
  (exists m1, Update m (MsgKey kf) = Ok (m1, None) /\
              Update m1 (MsgKey kb) = Ok (m, None)) /\
  (exists m2, Update m (MsgKey kb) = Ok (m2, None) /\
              Update m2 (MsgKey kf) = Ok (m, None)).
Proof.
  intros Hr Hb Hne Hf Hk.
  pose proof (reachable_box_ok m Hr b Hb) as Hok.
  pose proof (box_ok_nonempty b Hok Hne) as Hsel.
  assert (Hmod : forall a, 0 <= a mod GoSlice.len (buttons b)
                           < GoSlice.len (buttons b))
    by (intros a; apply Z.mod_pos_bound; lia).
  split.
  - rewrite (Update_forward m b kf Hb Hok Hne Hf).
    eexists. split; [reflexivity|].
    rewrite (Update_backward _ (set_selectedButton b
               ((selectedButton b + 1) mod GoSlice.len (buttons b))));
      [|reflexivity|apply box_ok_select; [assumption|apply Hmod]
       |exact Hne|exact Hk].
    cbn [set_selectedButton buttons selectedButton].
    rewrite forward_backward by exact Hsel.
    rewrite set_box_same by exact Hb. reflexivity.
  - rewrite (Update_backward m b kb Hb Hok Hne Hk).
    eexists. split; [reflexivity|].
    rewrite (Update_forward _ (set_selectedButton b
               ((selectedButton b + GoSlice.len (buttons b) - 1)
                  mod GoSlice.len (buttons b))));
      [|reflexivity|apply box_ok_select; [assumption|apply Hmod]
       |exact Hne|exact Hf].
    cbn [set_selectedButton buttons selectedButton].
    rewrite backward_forward by exact Hsel.
    rewrite set_box_same by exact Hb. reflexivity.
Qed.

Lemma pressN_forward (n : nat) (k : KeyMsg) :
  Type__ k = KeyCtrlI \/ Type__ k = KeyRight ->
  forall (m : Model) (b : box),
    box_ m = Some b -> box_ok b -> buttons b <> [] ->
    pressN n (MsgKey k) m
    = Ok (set_box m
            (Some (set_selectedButton b
                     ((selectedButton b + Z.of_nat n)
                        mod GoSlice.len (buttons b))))).
Proof.
  intros Hk. induction n as [|n IH]; intros m b Hb Hok Hne.
  - cbn [pressN]. rewrite Z.add_0_r.
    rewrite Z.mod_small by (apply box_ok_nonempty; assumption).
    rewrite set_box_id by exact Hb. reflexivity.
  - cbn [pressN]. rewrite (Update_forward m b k Hb Hok Hne Hk).
    cbn [bind fst].
    assert (Hmod : 0 <= (selectedButton b + 1) mod GoSlice.len (buttons b)
                   < GoSlice.len (buttons b)).
    { apply Z.mod_pos_bound.
      pose proof (box_ok_nonempty b Hok Hne). lia. }
    rewrite (IH _ (set_selectedButton b
                     ((selectedButton b + 1) mod GoSlice.len (buttons b))));
      [|reflexivity|apply box_ok_select; assumption|exact Hne].
    cbn [set_selectedButton buttons selectedButton message].
    rewrite Zplus_mod_idemp_l.
    replace (selectedButton b + 1 + Z.of_nat n)
      with (selectedButton b + Z.of_nat (S n)) by lia.
    destruct m; reflexivity.
Qed.

(** On every box with buttons a host can hold, [n] forward keys in a row
    move the selection [n] places round the button list, and as many
    forward keys as there are buttons give the model back as it was. *)
Theorem forward_keys_go_round_the_buttons (m : Model) (b : box) (k : KeyMsg)
  (n : nat) :
  reachable m -> box_ m = Some b -> buttons b <> [] ->
  Type__ k = KeyCtrlI \/ Type__ k = KeyRight ->
  pressN n (MsgKey k) m
  = Ok (set_box m
          (Some (set_selectedButton b
                   ((selectedButton b + Z.of_nat n)
                      mod GoSlice.len (buttons b))))) /\
  pressN (List.length (buttons b)) (MsgKey k) m = Ok m.
Proof.
  intros Hr Hb Hne Hk.
  pose proof (reachable_box_ok m Hr b Hb) as Hok.
  split; [apply pressN_forward; assumption|].
  rewrite (pressN_forward _ k Hk m b Hb Hok Hne).
  fold (GoSlice.len (buttons b)).
  replace (selectedButton b + GoSlice.len (buttons b))
    with (selectedButton b + 1 * GoSlice.len (buttons b)) by lia.
  rewrite Z_mod_plus_full.
  rewrite Z.mod_small by (apply box_ok_nonempty; assumption).
  rewrite set_box_id by exact Hb. reflexivity.
Qed.

(** Whatever the model and the message, when [Update] returns it has left
    viewport, position, width and styles alone; an inactive model is
    returned as it is with no command; an active one is dismissed exactly
    when a message is emitted; and a box that stays keeps its buttons and
    its text. *)
Theorem Update_emits_exactly_when_it_dismisses (m m' : Model) (msg : Msg)
  (cmd : option Msg) :
  Update m msg = Ok (m', cmd) ->
  (viewport m' = viewport m /\ xpos m' = xpos m /\ ypos m' = ypos m /\
   width m' = width m /\ styles m' = styles m) /\
  (IsActive m = false -> m' = m /\ cmd = None) /\
  (IsActive m = true -> (IsActive m' = false <-> cmd <> None)) /\
  (forall b b', box_ m = Some b -> box_ m' = Some b' ->
                buttons b' = buttons b /\ message b' = message b).
Proof.
  unfold Update, IsActive. intros HU.
  destruct (box_ m) as [b|] eqn:Hb.
  - assert (Hstay : (m', cmd) = (m, None) ->
      (viewport m' = viewport m /\ xpos m' = xpos m /\ ypos m' = ypos m /\
       width m' = width m /\ styles m' = styles m) /\
      (true = false -> m' = m /\ cmd = None) /\
      (true = true ->
       (match box_ m' with Some _ => true | None => false end = false
        <-> cmd <> None)) /\
      (forall b0 b', Some b = Some b0 -> box_ m' = Some b' ->
                     buttons b' = buttons b0 /\ message b' = message b0)).
    { intros E. injection E as -> ->. rewrite Hb.
      repeat split; try discriminate; try congruence.
      all: intros; congruence. }
    assert (Hgone : forall x, (m', cmd) = (set_box m None, Some x) ->
      (viewport m' = viewport m /\ xpos m' = xpos m /\ ypos m' = ypos m /\
       width m' = width m /\ styles m' = styles m) /\
      (true = false -> m' = m /\ cmd = None) /\
      (true = true ->
       (match box_ m' with Some _ => true | None => false end = false
        <-> cmd <> None)) /\
      (forall b0 b', Some b = Some b0 -> box_ m' = Some b' ->
                     buttons b' = buttons b0 /\ message b' = message b0)).
    { intros x E. injection E as -> ->. cbn [set_box viewport xpos ypos width
        styles box_]. repeat split; try discriminate. }
    assert (Hmove : forall s,
      (m', cmd) = (set_box m (Some (set_selectedButton b s)), None) ->
      (viewport m' = viewport m /\ xpos m' = xpos m /\ ypos m' = ypos m /\
       width m' = width m /\ styles m' = styles m) /\
      (true = false -> m' = m /\ cmd = None) /\
      (true = true ->
       (match box_ m' with Some _ => true | None => false end = false
        <-> cmd <> None)) /\
      (forall b0 b', Some b = Some b0 -> box_ m' = Some b' ->
                     buttons b' = buttons b0 /\ message b' = message b0)).
    { intros s E. injection E as -> ->. cbn [set_box viewport xpos ypos width
        styles box_]. repeat split; try discriminate; try congruence.
      all: intros;
        repeat match goal with
               | H : Some _ = Some _ |- _ => injection H as <-
               end; reflexivity. }
    destruct msg as [k|btn|cap|];
      try (apply Hstay; injection HU as <- <-; reflexivity).
    destruct (Type__ k).
    + apply (Hgone (MsgButtonToReturn (set_box m None))).
      injection HU as <- <-. reflexivity.
    + destruct (GoInt.rem _ _) as [s|p]; [|discriminate].
      apply (Hmove s). injection HU as <- <-. reflexivity.
    + destruct (GoInt.rem _ _) as [s|p]; [|discriminate].
      apply (Hmove s). injection HU as <- <-. reflexivity.
    + destruct (GoInt.rem _ _) as [s|p]; [|discriminate].
      apply (Hmove s). injection HU as <- <-. reflexivity.
    + destruct (GoInt.rem _ _) as [s|p]; [|discriminate].
      apply (Hmove s). injection HU as <- <-. reflexivity.
    + destruct (GoSlice.index _ _) as [d|p]; [|discriminate].
      apply (Hgone (MsgButton d)). injection HU as <- <-. reflexivity.
    + destruct (GoSlice.index _ _) as [d|p]; [|discriminate].
      apply (Hgone (MsgButton d)). injection HU as <- <-. reflexivity.
    + destruct (matchBoundKey k (buttons b)) as [[d|]|p]; [| |discriminate].
      * apply (Hgone (MsgButton d)). injection HU as <- <-. reflexivity.
      * apply Hstay. injection HU as <- <-. reflexivity.
  - injection HU as <- <-. rewrite Hb.
    repeat split; try discriminate.
Qed.

End MessageBoxCycle.

(** ** messagebox: opening and drawing *)

Section MessageBoxOpen.

Import messagebox.
Context {T : TermLib}.

Lemma renderButtons_loop_length (style : Styles) (sel : Z)
  (bs : list Button) :
  forall (i : Z) (l : list string),
    renderButtons_loop style sel i bs = Ok l ->
    List.length l = List.length bs.
Proof.
  induction bs as [|b bs IH]; intros i l; cbn [renderButtons_loop].
  - intros E. injection E as <-. reflexivity.
  - destruct (Button_render b style (i =? sel)) as [s|p]; [|discriminate].
    cbn [bind].
    destruct (renderButtons_loop style sel (i + 1) bs) as [rest|p] eqn:E;
      [|discriminate].
    cbn [bind]. intros E'. injection E' as <-.
    cbn [List.length]. rewrite (IH _ _ E). reflexivity.
Qed.

(** On every model a host can hold, [renderButtons] returns, with one
    rendered entry for each button joined by single spaces; so a panic of
    [Render] is one that [PlaceOverlay] raised on the base content, and
    when [Render] returns, the box is the one it was called with. *)
Theorem Render_panics_only_inside_PlaceOverlay (m : Model) (content : string) :
  reachable m ->
  (forall b, box_ m = Some b ->
     exists entries : list string,
       renderButtons m = Ok (GoStrings.Join entries " ") /\
       List.length entries = List.length (buttons b)) /\
  (forall p, Render m content = Panic p ->
     exists fg : string,
       PlaceOverlay (xpos m) (ypos m) fg content = Panic p) /\
  (forall m' s, Render m content = Ok (m', s) -> box_ m' = box_ m).
Proof.
  intros Hr. unfold Render, renderButtons.
  destruct (box_ m) as [b|] eqn:Hb.
  - destruct (reachable_box_ok m Hr b Hb) as (Hincl & _).
    pose proof (renderButtons_loop_known (styles m) (selectedButton b)
                  (buttons b) Hincl 0) as Hl.
    destruct (renderButtons_loop (styles m) (selectedButton b) 0 (buttons b))
      as [l|p] eqn:El; [|discriminate].
    cbn [bind]. split; [|split].
    + intros b0 E. injection E as <-. exists l. split; [reflexivity|].
      exact (renderButtons_loop_length _ _ _ _ _ El).
    + intros p. destruct (PlaceOverlay _ _ _ content) as [out|q] eqn:EP;
        [discriminate|].
      intros E. injection E as <-. eexists. exact EP.
    + intros m' s. destruct (PlaceOverlay _ _ _ content) as [out|q];
        [|discriminate].
      intros E. injection E as <- <-. reflexivity.
  - split; [|split].
    + discriminate.
    + discriminate.
    + intros m' s E. injection E as <- <-. exact Hb.
Qed.

(** [New] takes nothing from its receiver: no position, width, style,
    viewport or box of the model it is called on reaches the model it
    returns, so a box raised while another is active replaces it. *)
Theorem New_takes_nothing_from_the_receiver (m1 m2 : Model) (text : string)
  (boxType : Type_) (opts : list optionFunc) :
  New m1 text boxType opts = New m2 text boxType opts.
Proof. reflexivity. Qed.

Lemma New_width (m m' : Model) (text : string) (boxType : Type_)
  (opts : list optionFunc) :
  New m text boxType opts = Ok m' ->
  exists bar : string,
    renderButtons m' = Ok bar /\
    width m'
    = (if negb (o_width (applyOptions opts) =? 0)
       then GoInt.max (GoInt.add (runewidth_StringWidth bar) 2)
              (o_width (applyOptions opts))
       else defaultViewPortWidth).
Proof.
  unfold New, renderButtons, applyOptions.
  cbn [box_ buttons selectedButton styles].
  set (bs := filter (fun x => negb (Z.land boxType x =? 0)) displayOrder).
  set (o := fold_left (fun (o : options) (opt : options -> options) => opt o)
              opts _).
  set (st := match o_style o with None => DefaultStyles | Some s => s end).
  set (sel := if GoSlice.len bs =? 1 then 0 else _).
  destruct (renderButtons_loop st sel 0 bs) as [l|p] eqn:El; [|discriminate].
  cbn [bind]. intros E. injection E as <-.
  cbn [box_ set_message buttons selectedButton styles width].
  rewrite El. cbn [bind]. eexists. split; reflexivity.
Qed.

Lemma applyOptions_last (opts : list optionFunc) (f : optionFunc) :
  applyOptions (opts ++ [f]) = f (applyOptions opts).
Proof. unfold applyOptions. rewrite fold_left_app. reflexivity. Qed.

(** With [WithWidth w] as the last option and [w] not 0, the box is [w]
    wide or as wide as its button bar plus 2, whichever is more, so never
    narrower than the buttons need; with [w = 0] it has the default width
    of 40 whatever the buttons need. *)
Theorem WithWidth_is_never_narrower_than_the_buttons (m m' : Model)
  (text : string) (boxType : Type_) (opts : list optionFunc) (w : Z) :
  New m text boxType (opts ++ [WithWidth w]) = Ok m' ->
  exists bar : string,
    renderButtons m' = Ok bar /\
    (w <> 0 ->
     width m' = Z.max (GoInt.add (runewidth_StringWidth bar) 2) w /\
     w <= width m' /\
     GoInt.add (runewidth_StringWidth bar) 2 <= width m') /\
    (w = 0 -> width m' = 40).
Proof.
  intros HN. destruct (New_width _ _ _ _ _ HN) as (bar & Hbar & Hw).
  exists bar. split; [exact Hbar|].
  rewrite applyOptions_last in Hw. cbn [WithWidth o_width] in Hw.
  split.
  - intros Hne. destruct (Z.eqb_spec w 0); [contradiction|].
    cbn [negb] in Hw. unfold GoInt.max in Hw.
    destruct (Z.gtb_spec (GoInt.add (runewidth_StringWidth bar) 2) w); lia.
  - intros ->. exact Hw.
Qed.

Lemma some_button_requested (boxType : Z) :
  Z.land boxType allButtons <> 0 ->
  Z.land boxType MB_OK <> 0 \/ Z.land boxType MB_YES <> 0 \/
  Z.land boxType MB_NO <> 0 \/ Z.land boxType MB_ALL <> 0 \/
  Z.land boxType MB_CANCEL <> 0.
Proof.
  intros H.
  destruct (Z.eq_dec (Z.land boxType MB_OK) 0) as [E1|]; [|tauto].
  destruct (Z.eq_dec (Z.land boxType MB_YES) 0) as [E2|]; [|tauto].
  destruct (Z.eq_dec (Z.land boxType MB_NO) 0) as [E3|]; [|tauto].
  destruct (Z.eq_dec (Z.land boxType MB_ALL) 0) as [E4|]; [|tauto].
  destruct (Z.eq_dec (Z.land boxType MB_CANCEL) 0) as [E5|]; [|tauto].
  exfalso. apply H. unfold allButtons.
  rewrite !Z.land_lor_distr_r, E1, E2, E3, E4, E5. reflexivity.
Qed.

(** The button under the selection right after [New], when at least one
    button is requested: Cancel if requested, else No if requested, else
    the first requested button of the display order. *)
Lemma New_default_button (m : Model) (text : string) (boxType : Type_)
  (opts : list optionFunc) :
  Z.land boxType allButtons <> 0 ->
  exists (m' : Model) (b : box) (d : Button),
    New m text boxType opts = Ok m' /\ box_ m' = Some b /\
    GoSlice.index (buttons b) (selectedButton b) = Ok d /\
    (Z.land boxType MB_CANCEL <> 0 -> d = MB_CANCEL) /\
    (Z.land boxType MB_CANCEL = 0 -> Z.land boxType MB_NO <> 0 ->
     d = MB_NO) /\
    (Z.land boxType MB_CANCEL = 0 -> Z.land boxType MB_NO = 0 ->
     (Z.land boxType MB_OK <> 0 -> d = MB_OK) /\
     (Z.land boxType MB_OK = 0 -> Z.land boxType MB_YES <> 0 -> d = MB_YES) /\
     (Z.land boxType MB_OK = 0 -> Z.land boxType MB_YES = 0 -> d = MB_ALL)).
Proof.
  intros Hsome. apply some_button_requested in Hsome.
  destruct (New_returns m text boxType opts) as (m' & b & HN & Hb & Ebs & Es).
  unfold displayOrder in Ebs. cbn [filter] in Ebs.
  exists m', b.
  destruct (Z.eqb_spec (Z.land boxType MB_OK) 0) as [E1|E1];
    destruct (Z.eqb_spec (Z.land boxType MB_YES) 0) as [E2|E2];
    destruct (Z.eqb_spec (Z.land boxType MB_NO) 0) as [E3|E3];
    destruct (Z.eqb_spec (Z.land boxType MB_ALL) 0) as [E4|E4];
    destruct (Z.eqb_spec (Z.land boxType MB_CANCEL) 0) as [E5|E5];
    cbn [negb] in Ebs;
    try (exfalso; tauto);
    (eexists; split; [exact HN|]; split; [exact Hb|];
     split; [rewrite Es, Ebs; vm_compute; reflexivity|];
     repeat split; intros; try reflexivity; contradiction).
Qed.

(** Space or enter pressed right after [New], when at least one button
    is requested, dismisses the box and emits Cancel if Cancel is requested,
    else No if No is requested, else the first requested button of the
    display order Ok, Yes, All. *)
Theorem confirm_right_after_New_emits_the_safe_button (m : Model)
  (text : string) (boxType : Type_) (opts : list optionFunc) (k : KeyMsg) :
  Z.land boxType allButtons <> 0 ->
  Type__ k = KeySpace \/ Type__ k = KeyEnter ->
  exists (m' : Model) (d : Button),
    New m text boxType opts = Ok m' /\
    Update m' (MsgKey k) = Ok (set_box m' None, Some (MsgButton d)) /\
    (Z.land boxType MB_CANCEL <> 0 -> d = MB_CANCEL) /\
    (Z.land boxType MB_CANCEL = 0 -> Z.land boxType MB_NO <> 0 ->
     d = MB_NO) /\
    (Z.land boxType MB_CANCEL = 0 -> Z.land boxType MB_NO = 0 ->
     (Z.land boxType MB_OK <> 0 -> d = MB_OK) /\
     (Z.land boxType MB_OK = 0 -> Z.land boxType MB_YES <> 0 -> d = MB_YES) /\
     (Z.land boxType MB_OK = 0 -> Z.land boxType MB_YES = 0 -> d = MB_ALL)).
Proof.
  intros Hsome Hk.
  destruct (New_default_button m text boxType opts Hsome)
    as (m' & b & d & HN & Hb & Hd & Hrest).
  exists m', d. split; [exact HN|]. split; [|exact Hrest].
  unfold Update. rewrite Hb.
  destruct Hk as [-> | ->]; rewrite Hd; reflexivity.
Qed.

End MessageBoxOpen.

Lemma forward_backward_witness :
  exists m1,
    messagebox.Update deleteBox (keyOf messagebox.KeyCtrlI "tab")
    = Ok (m1, None) /\
    messagebox.Update m1 (keyOf messagebox.KeyShiftTab "shift+tab")
    = Ok (deleteBox, None).
Proof.
  apply (forward_and_backward_keys_undo_each_other deleteBox
           {| messagebox.message := "Delete selected?";
              messagebox.buttons :=
                [messagebox.MB_YES; messagebox.MB_NO; messagebox.MB_ALL];
              messagebox.selectedButton := 1 |}
           {| messagebox.Type__ := messagebox.KeyCtrlI;
              messagebox.String__ := "tab" |}
           {| messagebox.Type__ := messagebox.KeyShiftTab;
              messagebox.String__ := "shift+tab" |}).
  - exact deleteBox_reachable.
  - vm_compute. reflexivity.
  - discriminate.
  - left. reflexivity.
  - left. reflexivity.
Defined.

Lemma forward_keys_witness :
  messagebox.pressN 3 (keyOf messagebox.KeyRight "right") deleteBox
  = Ok deleteBox.
Proof.
  apply (forward_keys_go_round_the_buttons deleteBox
           {| messagebox.message := "Delete selected?";
              messagebox.buttons :=
                [messagebox.MB_YES; messagebox.MB_NO; messagebox.MB_ALL];
              messagebox.selectedButton := 1 |}
           {| messagebox.Type__ := messagebox.KeyRight;
              messagebox.String__ := "right" |} 0).
  - exact deleteBox_reachable.
  - vm_compute. reflexivity.
  - discriminate.
  - right. reflexivity.
Defined.

Lemma Update_emits_witness :
  messagebox.IsActive deleteBox = true /\
  messagebox.IsActive (messagebox.set_box deleteBox None) = false.
Proof.
  split; [reflexivity|].
  apply (Update_emits_exactly_when_it_dismisses deleteBox
           (messagebox.set_box deleteBox None)
           (keyOf messagebox.KeyEnter "enter")
           (Some (messagebox.MsgButton messagebox.MB_NO))).
  - vm_compute. reflexivity.
  - reflexivity.
  - discriminate.
Defined.

Lemma Render_witness :
  exists entries : list string,
    messagebox.renderButtons deleteBox = Ok (GoStrings.Join entries " ") /\
    List.length entries = 3%nat.
Proof.
  destruct (Render_panics_only_inside_PlaceOverlay deleteBox "table"
              deleteBox_reachable) as (Hbar & _).
  apply (Hbar {| messagebox.message := "Delete selected?";
                 messagebox.buttons :=
                   [messagebox.MB_YES; messagebox.MB_NO; messagebox.MB_ALL];
                 messagebox.selectedButton := 1 |}).
  vm_compute. reflexivity.
Defined.

Lemma WithWidth_witness :
  exists (m' : messagebox.Model),
    messagebox.New zeroModel "Proceed?" messagebox.OK_CANCEL
      [messagebox.WithPosition 3 4; messagebox.WithWidth 10] = Ok m' /\
    messagebox.width m' = 15.
Proof.
  eexists. split; [vm_compute; reflexivity|].
  destruct (WithWidth_is_never_narrower_than_the_buttons zeroModel _
              "Proceed?" messagebox.OK_CANCEL [messagebox.WithPosition 3 4] 10
              eq_refl) as (bar & Hbar & Hw & _).
  vm_compute in Hbar. injection Hbar as <-.
  destruct (Hw ltac:(discriminate)) as (E & _).
  exact E.
Defined.

Lemma confirm_right_after_New_witness :
  exists (m' : messagebox.Model),
    messagebox.New zeroModel "Delete selected?" messagebox.YES_NO_ALL []
    = Ok m' /\
    messagebox.Update m' (keyOf messagebox.KeyEnter "enter")
    = Ok (messagebox.set_box m' None,
          Some (messagebox.MsgButton messagebox.MB_NO)).
Proof.
  destruct (confirm_right_after_New_emits_the_safe_button zeroModel
              "Delete selected?" messagebox.YES_NO_ALL []
              {| messagebox.Type__ := messagebox.KeyEnter;
                 messagebox.String__ := "enter" |})
    as (m' & d & HN & HU & _ & Hno & _).
  - discriminate.
  - right. reflexivity.
  - exists m'. split; [exact HN|].
    rewrite <- (Hno eq_refl ltac:(discriminate)). exact HU.
Defined.

(** ** example/keys.go: sort keys and help columns *)

(** [sortKeyToIndex] sends the digit keys 1 to 9 to the columns 1 to 9 and
    the key 0 to column 10, no two digit keys to one column, and every
    rune that is no digit to 0, which no digit key gives. *)
Theorem sortKeyToIndex_numbers_the_digit_keys (key : Z) :
  0 <= example.sortKeyToIndex key <= 10 /\
  (example.sortKeyToIndex key = 0 <-> example.isdigit key = false) /\
  (49 <= key <= 57 -> example.sortKeyToIndex key = key - 48) /\
  (key = 48 -> example.sortKeyToIndex key = 10) /\
  (forall key' : Z,
      example.isdigit key = true -> example.isdigit key' = true ->
      example.sortKeyToIndex key = example.sortKeyToIndex key' ->
      key = key').
Proof.
  assert (Hdigit : forall k, example.isdigit k = true ->
            48 <= k <= 57 /\
            example.sortKeyToIndex k = (if k =? 48 then 10 else k - 48)).
  { intros k Hk. unfold example.sortKeyToIndex. rewrite Hk. cbn [negb].
    unfold example.isdigit in Hk. apply andb_prop in Hk.
    destruct Hk as [H1 H2]. apply Z.geb_le in H1. apply Z.leb_le in H2.
    split; [lia|]. unfold GoInt.sub. rewrite wrap_small by lia.
    destruct (Z.eqb_spec (k - 48) 0); destruct (Z.eqb_spec k 48);
      try reflexivity; lia. }
  destruct (example.isdigit key) eqn:Hk.
  - destruct (Hdigit key Hk) as (Hr & ->).
    repeat split; try discriminate;
      try (destruct (Z.eqb_spec key 48); lia).
    intros key' _ Hk' E. destruct (Hdigit key' Hk') as (Hr' & E').
    rewrite E' in E.
    destruct (Z.eqb_spec key 48); destruct (Z.eqb_spec key' 48); lia.
  - unfold example.sortKeyToIndex. rewrite Hk. cbn [negb].
    unfold example.isdigit in Hk. apply andb_false_iff in Hk.
    rewrite Z.geb_leb, !Z.leb_gt in Hk.
    repeat split; try discriminate; try lia.
Qed.

Section HelpColumns.

Variables Binding Action : Type.

Lemma slice_two (l : list (example.orderedKeyBinding Binding Action))
  (i : nat) (x y : example.orderedKeyBinding Binding Action)
  (rest : list (example.orderedKeyBinding Binding Action)) :
  skipn i l = x :: y :: rest ->
  example.slice l (Z.of_nat i) (Z.of_nat i + 2) = Ok [x; y] /\
  skipn (i + 2) l = rest /\ Z.of_nat i + 2 <= GoSlice.len l.
Proof.
  intros E. unfold example.slice, GoSlice.len.
  assert (Hlen : (i + 2 <= List.length l)%nat).
  { pose proof (length_skipn i l) as H. rewrite E in H. cbn in H. lia. }
  destruct (Z.ltb_spec (Z.of_nat i) 0); [lia|].
  destruct (Z.ltb_spec (Z.of_nat i + 2) (Z.of_nat i)); [lia|].
  destruct (Z.ltb_spec (Z.of_nat (List.length l)) (Z.of_nat i + 2)); [lia|].
  cbn [orb]. rewrite Nat2Z.id.
  replace (Z.to_nat (Z.of_nat i + 2 - Z.of_nat i)) with 2%nat by lia.
  rewrite E. split; [reflexivity|]. split; [|lia].
  replace (i + 2)%nat with (2 + i)%nat by lia.
  rewrite <- skipn_skipn, E. reflexivity.
Qed.

Lemma slice_one (l : list (example.orderedKeyBinding Binding Action))
  (i : nat) (x : example.orderedKeyBinding Binding Action) :
  skipn i l = [x] ->
  example.slice l (Z.of_nat i) (GoSlice.len l) = Ok [x] /\
  GoSlice.len l = Z.of_nat i + 1.
Proof.
  intros E. unfold example.slice, GoSlice.len.
  assert (Hlen : (List.length l = i + 1)%nat).
  { pose proof (length_skipn i l) as H. rewrite E in H. cbn in H. lia. }
  destruct (Z.ltb_spec (Z.of_nat i) 0); [lia|].
  destruct (Z.ltb_spec (Z.of_nat (List.length l)) (Z.of_nat i)); [lia|].
  destruct (Z.ltb_spec (Z.of_nat (List.length l))
              (Z.of_nat (List.length l))); [lia|].
  cbn [orb]. rewrite Nat2Z.id.
  replace (Z.to_nat (Z.of_nat (List.length l) - Z.of_nat i)) with 1%nat by lia.
  rewrite E. split; [reflexivity|lia].
Qed.

(** The loop, started at index [i] with enough steps, appends the pairs of
    the bindings from [i] on. *)
Lemma FullHelp_loop_pairs
  (l : list (example.orderedKeyBinding Binding Action)) :
  GoSlice.len l + 3 < 2 ^ 63 ->
  forall (steps i : nat) (acc : list (list Binding)),
    (List.length (skipn i l) < steps)%nat ->
    (i <= List.length l + 1)%nat ->
    example.FullHelp_loop Binding Action steps l (Z.of_nat i) acc
    = Some (Ok (acc ++ example.pairUp
                         (map (example.binding Binding Action)
                            (skipn i l)))%list).
Proof.
  intros Hbig. unfold GoSlice.len in Hbig.
  induction steps as [|steps IH]; intros i acc Hsteps Hi; [lia|].
  cbn [example.FullHelp_loop].
  destruct (skipn i l) as [|x [|y rest]] eqn:E.
  - (* nothing left *)
    apply skipn_all_iff in E.
    destruct (Z.ltb_spec (Z.of_nat i) (GoSlice.len l)) as [H|H];
      [unfold GoSlice.len in H; lia|].
    cbn. rewrite app_nil_r. reflexivity.
  - (* one binding left *)
    destruct (slice_one l i x E) as (Hs & Hl).
    destruct (Z.ltb_spec (Z.of_nat i) (GoSlice.len l)) as [H|H]; [|lia].
    unfold GoInt.add. rewrite wrap_small by (unfold GoSlice.len in Hl; lia).
    destruct (Z.gtb_spec (Z.of_nat i + 2) (GoSlice.len l)); [|lia].
    rewrite Hs. cbn [map].
    replace (Z.of_nat i + 2) with (Z.of_nat (i + 2)) by lia.
    rewrite IH.
    + assert (E2 : skipn (i + 2) l = [])
        by (apply skipn_all_iff; unfold GoSlice.len in Hl; lia).
      rewrite E2. cbn. rewrite app_nil_r. reflexivity.
    + rewrite length_skipn. unfold GoSlice.len in Hl.
      cbn in Hsteps. lia.
    + unfold GoSlice.len in Hl. lia.
  - (* two or more left *)
    destruct (slice_two l i x y rest E) as (Hs & Hrest & Hl).
    destruct (Z.ltb_spec (Z.of_nat i) (GoSlice.len l)) as [H|H]; [|lia].
    unfold GoInt.add.
    rewrite wrap_small by (unfold GoSlice.len in Hl; lia).
    destruct (Z.gtb_spec (Z.of_nat i + 2) (GoSlice.len l)); [lia|].
    rewrite Hs. cbn [map].
    replace (Z.of_nat i + 2) with (Z.of_nat (i + 2)) by lia.
    rewrite IH.
    + rewrite Hrest. cbn [example.pairUp]. rewrite <- app_assoc. reflexivity.
    + rewrite Hrest. cbn in Hsteps. lia.
    + unfold GoSlice.len in Hl. lia.
Qed.

Lemma pairUp_concat {A : Type} (l : list A) :
  List.concat (example.pairUp l) = l.
Proof.
  assert (H : forall n (l : list A), (List.length l <= n)%nat ->
                                     List.concat (example.pairUp l) = l).
  { induction n as [|n IH]; intros [|x [|y rest]] Hn; cbn in *;
      try reflexivity; try lia.
    rewrite IH by lia. reflexivity. }
  apply (H (List.length l)). lia.
Qed.

Lemma pairUp_columns {A : Type} (l : list A) :
  (2 * List.length (example.pairUp l) = List.length l + List.length l mod 2)%nat /\
  (forall (i : nat) (c : list A),
      nth_error (example.pairUp l) i = Some c ->
      (List.length c = 2 \/
       (List.length c = 1 /\ S i = List.length (example.pairUp l)))%nat).
Proof.
  assert (H : forall n (l : list A), (List.length l <= n)%nat ->
    (2 * List.length (example.pairUp l)
     = List.length l + List.length l mod 2)%nat /\
    (forall (i : nat) (c : list A),
        nth_error (example.pairUp l) i = Some c ->
        (List.length c = 2 \/
         (List.length c = 1 /\ S i = List.length (example.pairUp l)))%nat)).
  { induction n as [|n IH]; intros [|x [|y rest]] Hn; cbn [List.length] in Hn;
      try lia; cbn [example.pairUp].
    - split; [reflexivity|]. intros [|i] c Hc; discriminate.
    - split; [reflexivity|]. intros [|i] c Hc; discriminate.
    - split; [reflexivity|]. intros [|i] c Hc; [|destruct i; discriminate].
      injection Hc as <-. right. split; reflexivity.
    - destruct (IH rest ltac:(lia)) as (Hlen & Hcols). split.
      + cbn [List.length].
        replace (S (S (List.length rest))) with (List.length rest + 1 * 2)%nat
          by lia.
        rewrite Nat.Div0.mod_add. lia.
      + intros [|i] c Hc; cbn [nth_error] in Hc.
        * injection Hc as <-. left. reflexivity.
        * destruct (Hcols i c Hc) as [H2|[H1 Hlast]]; [left; exact H2|].
          right. split; [exact H1|]. cbn [List.length]. lia. }
  apply (H (List.length l)). lia.
Qed.

(** The loop of [FullHelp] returns, and lays the sorted bindings out in
    their order, two to a column, a last odd binding alone in the last
    column. *)
Theorem FullHelp_columns_hold_two_bindings_each
  (l : list (example.orderedKeyBinding Binding Action)) :
  GoSlice.len l + 3 < 2 ^ 63 ->
  exists cols : list (list Binding),
    example.FullHelp_columns Binding Action l = Some (Ok cols) /\
    List.concat cols = map (example.binding Binding Action) l /\
    (2 * List.length cols = List.length l + List.length l mod 2)%nat /\
    (forall (i : nat) (c : list Binding),
        nth_error cols i = Some c ->
        (List.length c = 2 \/
         (List.length c = 1 /\ S i = List.length cols))%nat).
Proof.
  intros Hbig. unfold example.FullHelp_columns.
  change 0 with (Z.of_nat 0).
  rewrite (FullHelp_loop_pairs l Hbig) by (cbn [skipn]; lia).
  cbn [skipn app]. eexists. split; [reflexivity|].
  split; [apply pairUp_concat|].
  rewrite <- (length_map (example.binding Binding Action) l).
  apply pairUp_columns.
Qed.

End HelpColumns.

Lemma FullHelp_columns_witness :
  example.FullHelp_columns nat unit
    [ {| example.binding := 1%nat; example.order := 0; example.action := tt |};
      {| example.binding := 2%nat; example.order := 10; example.action := tt |};
      {| example.binding := 3%nat; example.order := 11; example.action := tt |} ]
  = Some (Ok [[1; 2]; [3]]%nat).
Proof.
  destruct (FullHelp_columns_hold_two_bindings_each nat unit
    [ {| example.binding := 1%nat; example.order := 0; example.action := tt |};
      {| example.binding := 2%nat; example.order := 10; example.action := tt |};
      {| example.binding := 3%nat; example.order := 11; example.action := tt |} ])
    as (cols & E & _).
  - vm_compute. reflexivity.
  - pose proof E as E'. vm_compute in E'. rewrite E. symmetry. exact E'.
Defined.

(** ** xtable_test.go: the comparison of row lists *)

Section DeepEqual.

Import xtable.

Lemma skipn_nth_error {A : Type} (l : list A) (n : nat) (a : A) :
  nth_error l n = Some a -> skipn n l = a :: skipn (S n) l.
Proof.
  revert l. induction n as [|n IH]; intros [|x l] H; try discriminate.
  - injection H as ->. reflexivity.
  - cbn [nth_error] in H. cbn [skipn]. rewrite (IH l H). reflexivity.
Qed.

Lemma index_nat {A : Type} (l : list A) (n : nat) :
  GoSlice.index l (Z.of_nat n)
  = match nth_error l n with
    | Some a => Ok a
    | None => Panic IndexOutOfRange
    end.
Proof.
  unfold GoSlice.index. destruct (Z.ltb_spec (Z.of_nat n) 0); [lia|].
  rewrite Nat2Z.id. reflexivity.
Qed.

(** The inner loop accepts exactly when the cells of the row of [b] from
    [j] on start with the cells given. *)
Lemma deepEqual_cells_true (b : list Row) (i : Z) (bi : Row) :
  GoSlice.index b i = Ok bi ->
  forall (fs : list string) (j : nat),
    deepEqual_cells fs (Z.of_nat j) b i = Ok true <->
    exists rest : list string, skipn j (Data bi) = (fs ++ rest)%list.
Proof.
  intros Hbi. induction fs as [|f fs IH]; intros j; cbn [deepEqual_cells].
  - split; [|reflexivity]. intros _. exists (skipn j (Data bi)). reflexivity.
  - rewrite Hbi. cbn [bind]. rewrite index_nat.
    destruct (nth_error (Data bi) j) as [g|] eqn:Eg; cbn [bind].
    + rewrite (skipn_nth_error _ _ _ Eg).
      destruct (String.eqb_spec f g) as [->|Hne]; cbn [negb].
      * replace (Z.of_nat j + 1) with (Z.of_nat (S j)) by lia.
        rewrite IH. split; intros [rest E]; exists rest.
        -- cbn [app]. rewrite E. reflexivity.
        -- cbn [app] in E. injection E as E. exact E.
      * split; [discriminate|]. intros [rest E]. cbn [app] in E.
        injection E as E _. congruence.
    + split; [discriminate|]. intros [rest E].
      apply nth_error_None in Eg.
      rewrite skipn_all2 in E by exact Eg. discriminate.
Qed.

Lemma deepEqual_rows_true (b : list Row) :
  forall (a : list Row) (i : nat),
    List.length (skipn i b) = List.length a ->
    (deepEqual_rows a (Z.of_nat i) b = Ok true <->
     Forall2 cellsPrefix a (skipn i b)).
Proof.
  induction a as [|r a IH]; intros i Hlen; cbn [deepEqual_rows].
  - destruct (skipn i b); [|discriminate].
    split; [constructor|reflexivity].
  - destruct (skipn i b) as [|rb tl] eqn:E; [discriminate|].
    assert (Hnth : nth_error b i = Some rb).
    { rewrite <- (Nat.add_0_r i), <- nth_error_skipn, E. reflexivity. }
    assert (Hbi : GoSlice.index b (Z.of_nat i) = Ok rb)
      by (rewrite index_nat, Hnth; reflexivity).
    assert (Etl : skipn (S i) b = tl).
    { rewrite (skipn_nth_error _ _ _ Hnth) in E. injection E as E. exact E. }
    pose proof (deepEqual_cells_true b (Z.of_nat i) rb Hbi (Data r) 0) as Hc.
    cbn [skipn Z.of_nat] in Hc. fold (cellsPrefix r rb) in Hc.
    destruct (deepEqual_cells (Data r) 0 b (Z.of_nat i)) as [[|]|p];
      cbn [bind].
    + replace (Z.of_nat i + 1) with (Z.of_nat (S i)) by lia.
      rewrite IH by (rewrite Etl; cbn in Hlen; lia). rewrite Etl.
      split.
      * intros H. constructor; [apply Hc; reflexivity|exact H].
      * intros H. inversion H; subst. assumption.
    + split; [discriminate|]. intros H. inversion H; subst.
      apply Hc in H3. discriminate.
    + split; [discriminate|]. intros H. inversion H; subst.
      apply Hc in H3. discriminate.
Qed.

(** [deepEqual a b] returns true exactly when the two lists have the same
    number of rows and the cells of every row of [b] start with the cells of
    the matching row of [a]: cells that only [b] has, and the metadata of
    either, are not compared. *)
Theorem deepEqual_accepts_rows_that_extend_the_expected (a b : list Row) :
  deepEqual a b = Ok true <->
  List.length a = List.length b /\ Forall2 cellsPrefix a b.
Proof.
  unfold deepEqual, GoSlice.len.
  destruct (Z.eqb_spec (Z.of_nat (List.length a)) (Z.of_nat (List.length b)))
    as [E|E]; cbn [negb].
  - change 0 with (Z.of_nat 0).
    rewrite deepEqual_rows_true by (cbn [skipn]; lia).
    cbn [skipn]. split; [intros H; split; [lia|exact H]|tauto].
  - split; [discriminate|]. intros [H _]. lia.
Qed.

(** A row list equals itself under [deepEqual]. *)
Example deepEqual_same :
  deepEqual (rows biscuits) (rows biscuits) = Ok true.
Proof. vm_compute. reflexivity. Qed.

(** An extra cell in the second list is accepted, in the first it makes
    the comparison index past the end of the shorter row. *)
Example deepEqual_one_sided :
  deepEqual [row ["foo1"]] [row ["foo1"; "bar1"]] = Ok true /\
  deepEqual [row ["foo1"; "bar1"]] [row ["foo1"]] = Panic IndexOutOfRange.
Proof. split; vm_compute; reflexivity. Qed.

End DeepEqual.

(** The hashes TestGetRowByHash lists are those [newRowData] computes for
    the four records, which the rows of [packets] carry. *)
Example newRowData_hashes :
  map (fun r => Some (xtable.hash r))
    [ xtable.newRowData "Chocolate Digestives" 12;
      xtable.newRowData "Tim Tams" 8;
      xtable.newRowData "Hobnobs" 10;
      xtable.newRowData "Peanut Butter Cookie" 8 ]
  = map xtable.Metadata (xtable.rows xtable.packets).
Proof. vm_compute. reflexivity. Qed.

(** ** messagebox: what every box keeps *)

Section MessageBoxInvariant.

Import messagebox.
Context {T : TermLib}.

Lemma Update_keeps_buttons (m m' : Model) (msg : Msg) (cmd : option Msg)
  (b b' : box) :
  Update m msg = Ok (m', cmd) -> box_ m = Some b -> box_ m' = Some b' ->
  buttons b' = buttons b.
Proof.
  unfold Update. intros HU Hb Hb'. rewrite Hb in HU.
  assert (Hsame : m' = m -> buttons b' = buttons b) by (intros ->; congruence).
  assert (Hmove : forall s, m' = set_box m (Some (set_selectedButton b s)) ->
                            buttons b' = buttons b).
  { intros s ->. cbn [set_box box_] in Hb'. injection Hb' as <-. reflexivity. }
  assert (Hgone : m' = set_box m None -> buttons b' = buttons b)
    by (intros ->; discriminate).
  destruct msg as [k|btn|cap|]; try (injection HU as <- <-; auto; fail).
  destruct (Type__ k).
  - injection HU as <- <-. auto.
  - destruct (GoInt.rem _ _) as [s|p]; [|discriminate].
    injection HU as <- <-. eauto.
  - destruct (GoInt.rem _ _) as [s|p]; [|discriminate].
    injection HU as <- <-. eauto.
  - destruct (GoInt.rem _ _) as [s|p]; [|discriminate].
    injection HU as <- <-. eauto.
  - destruct (GoInt.rem _ _) as [s|p]; [|discriminate].
    injection HU as <- <-. eauto.
  - destruct (GoSlice.index _ _) as [d|p]; [|discriminate].
    injection HU as <- <-. auto.
  - destruct (GoSlice.index _ _) as [d|p]; [|discriminate].
    injection HU as <- <-. auto.
  - destruct (matchBoundKey k (buttons b)) as [[d|]|p]; [| |discriminate];
      injection HU as <- <-; auto.
Qed.

Lemma sorted_by_rank_NoDup (l : list Button) :
  StronglySorted (fun x y => displayRank x < displayRank y) l -> NoDup l.
Proof.
  induction 1 as [|a l Hl IH Ha]; constructor; [|exact IH].
  intros Hin. rewrite Forall_forall in Ha. specialize (Ha a Hin). lia.
Qed.

Lemma reachable_buttons_sorted (m : Model) :
  reachable m ->
  forall b, box_ m = Some b ->
            StronglySorted (fun x y => displayRank x < displayRank y)
              (buttons b).
Proof.
  induction 1 as [m Hnone|m m' text boxType opts Hm IH HN
                 |m m' msg cmd Hm IH HU]; intros b Hb.
  - rewrite Hnone in Hb. discriminate.
  - destruct (New_returns m text boxType opts) as (m1 & b1 & E & Hb1 & Ebs & _).
    rewrite HN in E. injection E as <-. rewrite Hb in Hb1. injection Hb1 as <-.
    rewrite Ebs. apply StronglySorted_filter. exact displayOrder_sorted.
  - destruct (box_ m) as [b0|] eqn:Hb0.
    + rewrite (Update_keeps_buttons m m' msg cmd b0 b HU Hb0 Hb).
      apply IH. reflexivity.
    + unfold Update in HU. rewrite Hb0 in HU. injection HU as <- <-.
      rewrite Hb0 in Hb. discriminate.
Qed.

(** Every box a host can hold, after any run of [New] and [Update], shows
    only the five buttons, each at most once, in the display order Ok, Yes,
    No, All, Cancel; [Update] never adds, drops or reorders a button. *)
Theorem reachable_box_shows_distinct_buttons_in_display_order (m : Model)
  (b : box) :
  reachable m -> box_ m = Some b ->
  StronglySorted (fun x y => displayRank x < displayRank y) (buttons b) /\
  NoDup (buttons b) /\
  incl (buttons b) [MB_OK; MB_YES; MB_NO; MB_ALL; MB_CANCEL] /\
  GoSlice.len (buttons b) <= 5.
Proof.
  intros Hr Hb.
  pose proof (reachable_buttons_sorted m Hr b Hb) as Hs.
  destruct (reachable_box_ok m Hr b Hb) as (Hincl & Hlen & _).
  split; [exact Hs|]. split; [apply sorted_by_rank_NoDup; exact Hs|].
  split; [exact Hincl|exact Hlen].
Qed.

End MessageBoxInvariant.

Lemma reachable_box_witness :
  NoDup [messagebox.MB_YES; messagebox.MB_NO; messagebox.MB_ALL].
Proof.
  apply (reachable_box_shows_distinct_buttons_in_display_order deleteBox
           {| messagebox.message := "Delete selected?";
              messagebox.buttons :=
                [messagebox.MB_YES; messagebox.MB_NO; messagebox.MB_ALL];
              messagebox.selectedButton := 1 |}).
  - exact deleteBox_reachable.
  - vm_compute. reflexivity.
Defined.

(** ** xtable: removal on the edges *)

(** A hash that no row is registered for removes nothing and returns
    false. *)
Example RemoveRowByHash_unknown_hash :
  xtable.RemoveRowByHash xtable.packets 0 = (xtable.packets, false).
Proof. vm_compute. reflexivity. Qed.

(** With the cursor on the last of four rows, removing the first row by
    its hash leaves the cursor on the last of the three that remain. *)
Example RemoveRowByHash_keeps_cursor_on_a_row :
  xtable.cursor
    (fst (xtable.RemoveRowByHash (xtable.set_cursor xtable.packets 3)
            0x40099b03ee546818))
  = 2.
Proof. vm_compute. reflexivity. Qed.

(** Removing the only row by its index returns true and leaves no row; an
    index on the table without rows returns false. *)
Example RemoveRowByIndex_only_row :
  let one := xtable.New [] [xtable.row ["only"]] 5 in
  (snd (xtable.RemoveRowByIndex one 0),
   xtable.rows (fst (xtable.RemoveRowByIndex one 0)),
   snd (xtable.RemoveRowByIndex (fst (xtable.RemoveRowByIndex one 0)) 0))
  = (true, [], false).
Proof. vm_compute. reflexivity. Qed.
